(** * BART relay: the transit feed adapter and the observation store

    A shallow embedding of [app.py] (the Flask request handlers) and
    [database.py] (the SQLite store), and the properties of the two that
    the specification records.

    Conventions of the embedding.
    - A Python value that comes out of [response.json()] or goes into
      [jsonify] is a [pyval]; dictionaries are finite maps from strings.
    - A Python exception is an [exn]; code that may raise returns a
      [result].  [datetime.now()] reads a clock, given as the sequence of
      its successive readings, so the adapter runs in a small monad that
      counts the readings and carries the exception.
    - A Python [float] and an SQLite REAL are binary64 numbers
      ([spec_float] at precision 53).
    - Text is ASCII text.  SQLite INTEGER values are integers ([Z]); an
      instant is the number of seconds since the epoch (UTC), so that
      comparing two [YYYY-MM-DD HH:MM:SS] texts is comparing two numbers and
      [date(t)] is the number of the day [t] falls on. *)

From Stdlib Require Import ZArith String Ascii List Lia Bool.
From Stdlib Require Import Floats.SpecFloat.
From Stdlib Require Import Sorted Permutation.
From stdpp Require Import gmap strings list fin_maps pretty.

#[local] Set Warnings "-register-all".
#[local] Open Scope string_scope.
#[local] Open Scope Z_scope.

(** ** Python values, exceptions *)

Inductive pyval : Type :=
  | PNone
  | PBool (b : bool)
  | PInt (z : Z)
  | PFloat (f : spec_float)
  | PStr (s : string)
  | PList (l : list pyval)
  | PDict (d : gmap string pyval).

Inductive exn_kind : Type :=
  | KeyError | TypeError | IndexError | ValueError | OverflowError
  | ZeroDivisionError
  | RequestException   (* requests: connection failures, HTTPError, bad JSON *)
  | OperationalError.  (* sqlite3 *)

(** An exception, with the text [str(e)] gives. *)
Record exn : Type := Exn { exn_kind_of : exn_kind; str : string }.

Inductive result (A : Type) : Type :=
  | Ok (a : A)
  | Err (e : exn).
Arguments Ok {A} a.
Arguments Err {A} e.

Definition rbind {A B} (r : result A) (k : A -> result B) : result B :=
  match r with
  | Ok a => k a
  | Err e => Err e
  end.

Notation "x <~ c ; k" := (rbind c (fun x => k))
  (at level 20, c at level 100, k at level 200, only parsing).

(** The name Python prints for the type of a value. *)
Definition type_name (v : pyval) : string :=
  match v with
  | PNone => "NoneType"
  | PBool _ => "bool"
  | PInt _ => "int"
  | PFloat _ => "float"
  | PStr _ => "str"
  | PList _ => "list"
  | PDict _ => "dict"
  end.

Definition is_PStr (k : string) (v : pyval) : bool :=
  match v with
  | PStr s => String.eqb s k
  | _ => false
  end.

Definition is_substring (k s : string) : bool :=
  match index 0 k s with
  | Some _ => true
  | None => false
  end.

(** [k in x], for a string [k]. *)
Definition py_contains (k : string) (x : pyval) : result bool :=
  match x with
  | PDict d => Ok (bool_decide (is_Some (d !! k)))
  | PList l => Ok (existsb (is_PStr k) l)
  | PStr s => Ok (is_substring k s)
  | _ => Err (Exn TypeError
                ("argument of type '" +:+ type_name x +:+ "' is not iterable"))
  end.

(** [x[k]], for a string [k]. *)
Definition py_getitem (x : pyval) (k : string) : result pyval :=
  match x with
  | PDict d =>
      match d !! k with
      | Some v => Ok v
      | None => Err (Exn KeyError ("'" +:+ k +:+ "'"))
      end
  | PList _ =>
      Err (Exn TypeError "list indices must be integers or slices, not str")
  | PStr _ =>
      Err (Exn TypeError "string indices must be integers, not 'str'")
  | _ => Err (Exn TypeError
                ("'" +:+ type_name x +:+ "' object is not subscriptable"))
  end.

(** [x[0]].  The keys of a dictionary that was read from JSON are strings,
    so [0] is never one of them. *)
Definition py_getitem0 (x : pyval) : result pyval :=
  match x with
  | PList (v :: _) => Ok v
  | PList [] => Err (Exn IndexError "list index out of range")
  | PStr (String c _) => Ok (PStr (String c ""))
  | PStr "" => Err (Exn IndexError "string index out of range")
  | PDict _ => Err (Exn KeyError "0")
  | _ => Err (Exn TypeError
                ("'" +:+ type_name x +:+ "' object is not subscriptable"))
  end.

Fixpoint chars (s : string) : list pyval :=
  match s with
  | "" => []
  | String c s' => PStr (String c "") :: chars s'
  end.

(** The values [for v in x] runs through. *)
Definition py_iter (x : pyval) : result (list pyval) :=
  match x with
  | PList l => Ok l
  | PDict d => Ok (PStr <$> (map_to_list d).*1)
  | PStr s => Ok (chars s)
  | _ => Err (Exn TypeError
                ("'" +:+ type_name x +:+ "' object is not iterable"))
  end.

(** [x != k], for a string [k]. *)
Definition py_ne (x : pyval) (k : string) : bool :=
  negb (is_PStr k x).

(** ** [int()] *)

Definition is_space (c : ascii) : bool :=
  let n := Z.of_nat (nat_of_ascii c) in
  (n =? 32) || ((9 <=? n) && (n <=? 13)).

Definition is_digit (c : ascii) : bool :=
  let n := Z.of_nat (nat_of_ascii c) in
  (48 <=? n) && (n <=? 57).

Definition digit_value (c : ascii) : Z :=
  Z.of_nat (nat_of_ascii c) - 48.

Fixpoint lstrip (s : string) : string :=
  match s with
  | "" => ""
  | String c s' => if is_space c then lstrip s' else s
  end.

Fixpoint rstrip (s : string) : string :=
  match s with
  | "" => ""
  | String c s' =>
      match rstrip s' with
      | "" => if is_space c then "" else String c ""
      | r => String c r
      end
  end.

(** Digits, with single underscores allowed between two digits. [after_digit]
    says whether the character before was a digit. *)
Fixpoint parse_digits (s : string) (acc : Z) (after_digit : bool) : option Z :=
  match s with
  | "" => if after_digit then Some acc else None
  | String c s' =>
      if is_digit c then parse_digits s' (10 * acc + digit_value c) true
      else if Ascii.eqb c "_" && after_digit then
        match s' with
        | "" => None
        | _ => parse_digits s' acc false
        end
      else None
  end.

Fixpoint count_digits (s : string) : Z :=
  match s with
  | "" => 0
  | String c s' => (if is_digit c then 1 else 0) + count_digits s'
  end.

(** CPython's default bound on the digits of a decimal literal it converts. *)
Definition int_max_str_digits : Z := 4300.

Definition invalid_literal (s : string) : exn :=
  Exn ValueError ("invalid literal for int() with base 10: '" +:+ s +:+ "'").

Definition int_of_string (s : string) : result Z :=
  let t := rstrip (lstrip s) in
  let '(neg, body) :=
    match t with
    | String "-" r => (true, r)
    | String "+" r => (false, r)
    | _ => (false, t)
    end in
  match parse_digits body 0 false with
  | None => Err (invalid_literal s)
  | Some n =>
      if int_max_str_digits <? count_digits body
      then Err (Exn ValueError
                  ("Exceeds the limit (4300 digits) for integer string conversion: value has "
                   +:+ pretty (count_digits body)
                   +:+ " digits; use sys.set_int_max_str_digits() to increase the limit"))
      else Ok (if neg then - n else n)
  end.

(** [int(f)] for a float: the integer part, towards zero. *)
Definition int_of_float (f : spec_float) : result Z :=
  match f with
  | S754_zero _ => Ok 0
  | S754_nan => Err (Exn ValueError "cannot convert float NaN to integer")
  | S754_infinity _ =>
      Err (Exn OverflowError "cannot convert float infinity to integer")
  | S754_finite s m e =>
      let a := if 0 <=? e then Z.shiftl (Z.pos m) e
               else Z.shiftr (Z.pos m) (- e) in
      Ok (if s then - a else a)
  end.

Definition py_int (x : pyval) : result Z :=
  match x with
  | PInt z => Ok z
  | PBool b => Ok (if b then 1 else 0)
  | PFloat f => int_of_float f
  | PStr s => int_of_string s
  | _ => Err (Exn TypeError
                ("int() argument must be a string, a bytes-like object or a real number, not '"
                 +:+ type_name x +:+ "'"))
  end.


(** ** The clock, and the monad of a request handler

    [datetime.now()] is read several times in one request; the clock is
    the sequence of those readings and a handler counts how many it has
    taken.  An exception keeps the count, since the [except] branch reads
    the clock once more. *)

Definition M (A : Type) : Type := nat -> result A * nat.

Definition ret {A} (a : A) : M A := fun n => (Ok a, n).

Definition bind {A B} (m : M A) (k : A -> M B) : M B :=
  fun n =>
    match m n with
    | (Ok a, n') => k a n'
    | (Err e, n') => (Err e, n')
    end.

Definition lift {A} (r : result A) : M A := fun n => (r, n).

(** [datetime.now().isoformat()] *)
Definition now (clock : nat -> string) : M string :=
  fun n => (Ok (clock n), S n).

Notation "x <- c ; k" := (bind c (fun x => k))
  (at level 20, c at level 100, k at level 200, only parsing).

(** A [for] loop whose body updates the accumulator [acc]. *)
Fixpoint for_each {A S} (l : list A) (body : A -> S -> M S) (acc : S) : M S :=
  match l with
  | [] => ret acc
  | x :: l' => acc' <- body x acc ; for_each l' body acc'
  end.

(** ** The upstream feed and the responses *)

(** What one [requests.get] gives: no response at all, or a response with
    its status code, the text of the error [raise_for_status] builds from
    it, and what [response.json()] returns or raises. *)
Inductive upstream : Type :=
  | NoResponse (error : string)
  | Response (status_code : Z) (http_error : string) (json : result pyval).

(** [requests.get(...)], [response.raise_for_status()], [response.json()] *)
Definition fetch_json (u : upstream) : result pyval :=
  match u with
  | NoResponse msg => Err (Exn RequestException msg)
  | Response status_code http_error json =>
      if (400 <=? status_code) && (status_code <? 600)
      then Err (Exn RequestException http_error)
      else json
  end.

(** What a handler returns: [jsonify(body)] and the HTTP status. *)
Record response : Type := { body : pyval; code : Z }.

Definition dict (l : list (string * pyval)) : pyval :=
  PDict (list_to_map l).

(** ** [get_stations] *)

Definition list_stations (data : pyval) : result (list pyval) :=
  root <~ py_getitem data "root" ;
  container <~ py_getitem root "stations" ;
  l <~ py_getitem container "station" ;
  items <~ py_iter l ;
  (fix loop (items : list pyval) (stations : list pyval) : result (list pyval) :=
     match items with
     | [] => Ok stations
     | station :: items' =>
         name <~ py_getitem station "name" ;
         abbr <~ py_getitem station "abbr" ;
         loop items' (stations ++ [dict [("name", name); ("abbr", abbr)]])%list
     end) items [].

(** The body of the [try]. *)
Definition get_stations_try (feed : upstream) : result (list pyval) :=
  data <~ fetch_json feed ;
  list_stations data.

Definition get_stations (feed : upstream) : response :=
  match get_stations_try feed with
  | Ok stations => {| body := PList stations; code := 200 |}
  | Err e => {| body := dict [("error", PStr (str e))]; code := 500 |}
  end.

(** ** [get_departures] *)

(** [int(estimate['minutes'] if estimate['minutes'] != 'Leaving' else '0')] *)
Definition minutes_field (estimate : pyval) : result Z :=
  m <~ py_getitem estimate "minutes" ;
  if py_ne m "Leaving"
  then m' <~ py_getitem estimate "minutes" ; py_int m'
  else py_int (PStr "0").

(** The dictionary built for one estimate. *)
Definition departure_of (clock : nat -> string) (destination estimate : pyval)
  : M pyval :=
  timestamp <- now clock ;
  minutes <- lift (minutes_field estimate) ;
  platform <- lift (py_getitem estimate "platform") ;
  direction <- lift (py_getitem estimate "direction") ;
  length <- lift (l <~ py_getitem estimate "length" ; py_int l) ;
  ret (dict [("timestamp", PStr timestamp);
             ("destination", destination);
             ("minutes", PInt minutes);
             ("platform", platform);
             ("direction", direction);
             ("delay", PInt 0);
             ("length", PInt length)]).

(** The body of the [try], up to the list [departures]. *)
Definition collect_departures (clock : nat -> string) (data : pyval)
  : M (list pyval) :=
  has_root <- lift (py_contains "root" data) ;
  has_station <-
    (if has_root : bool
     then lift (root <~ py_getitem data "root" ; py_contains "station" root)
     else ret false) ;
  if has_station : bool then
    station_data <-
      lift (root <~ py_getitem data "root" ;
            stations <~ py_getitem root "station" ;
            py_getitem0 stations) ;
    has_etd <- lift (py_contains "etd" station_data) ;
    if has_etd : bool then
      etds <- lift (e <~ py_getitem station_data "etd" ; py_iter e) ;
      for_each etds (fun etd departures =>
        destination <- lift (py_getitem etd "destination") ;
        estimates <- lift (e <~ py_getitem etd "estimate" ; py_iter e) ;
        for_each estimates (fun estimate departures =>
          departure <- departure_of clock destination estimate ;
          ret (departures ++ [departure])%list) departures) []
    else ret []
  else ret [].

Definition departures_ok (timestamp : string) (departures : list pyval) : pyval :=
  dict [("status", PStr "Data available");
        ("timestamp", PStr timestamp);
        ("departures", PList departures)].

Definition departures_error (timestamp : string) (e : exn) : pyval :=
  dict [("status", PStr "Error");
        ("timestamp", PStr timestamp);
        ("error", PStr (str e));
        ("departures", PList [])].

(** The body of the [try]; the feed is asked for the station of the
    request. *)
Definition get_departures_try (clock : nat -> string) (feed : string -> upstream)
    (station : string) : M pyval :=
  data <- lift (fetch_json (feed station)) ;
  departures <- collect_departures clock data ;
  timestamp <- now clock ;
  ret (departures_ok timestamp departures).

Definition get_departures (clock : nat -> string) (feed : string -> upstream)
    (station : string) : response :=
  match get_departures_try clock feed station 0%nat with
  | (Ok b, _) => {| body := b; code := 200 |}
  | (Err e, n) => {| body := departures_error (clock n) e; code := 500 |}
  end.

(** ** [get_daily_analytics] *)

Definition get_daily_analytics (clock : nat -> string) : response :=
  {| body := dict [("status", PStr "No historical data available");
                   ("timestamp", PStr (clock 0%nat));
                   ("data", PList [])];
     code := 200 |}.

(** ** Floats: binary64 *)

Definition prec : Z := 53.
Definition emax : Z := 1024.

(** [float(z)], the conversion of an integer. *)
Definition float_of_Z (z : Z) : spec_float := binary_normalize prec emax z 0 false.

Definition fmul : spec_float -> spec_float -> spec_float := SFmul prec emax.
Definition fdiv : spec_float -> spec_float -> spec_float := SFdiv prec emax.

(** An integer as an unrounded operand: dividing two of these rounds once,
    which is how Python divides two integers and how a decimal numeral is
    read. *)
Definition exact (s : bool) (z : Z) : spec_float :=
  match z with
  | Z0 => S754_zero s
  | Zpos p => S754_finite s p 0
  | Zneg p => S754_finite (negb s) p 0
  end.

(** [a / b] on integers. *)
Definition py_truediv (a b : Z) : result spec_float :=
  if b =? 0 then Err (Exn ZeroDivisionError "division by zero")
  else
    match fdiv (exact false a) (exact false b) with
    | S754_infinity _ =>
        Err (Exn OverflowError "integer division result too large for a float")
    | q => Ok q
    end.

(** The integer nearest to [n / d], ties to the even one ([0 <= n], [0 < d]). *)
Definition round_half_even (n d : Z) : Z :=
  let q := n / d in
  match 2 * (n mod d) ?= d with
  | Lt => q
  | Gt => q + 1
  | Eq => if Z.even q then q else q + 1
  end.

(** The float nearest to [k / 10], with the sign [s]. *)
Definition tenths (s : bool) (k : Z) : spec_float :=
  fdiv (exact s k) (exact false 10).

(** [round(x, 1)] on a float: the value is rounded to one decimal, ties to
    even, and the decimal read back as a float.  A float with no fractional
    bits is its own rounding. *)
Definition py_round1 (x : spec_float) : spec_float :=
  match x with
  | S754_finite s m e =>
      if 0 <=? e then x
      else tenths s (round_half_even (10 * Z.pos m) (2 ^ (- e)))
  | _ => x
  end.

Definition is_zero (x : spec_float) : bool :=
  match x with
  | S754_zero _ => true
  | _ => false
  end.

(** [round((on_time / total * 100) if total > 0 else 0, 1)]; [round] of the
    integer [0] is the integer [0]. *)
Definition on_time_rate (on_time total : Z) : result pyval :=
  if 0 <? total then
    q <~ py_truediv on_time total ;
    Ok (PFloat (py_round1 (fmul q (float_of_Z 100))))
  else Ok (PInt 0).

(** [round(avg or 0, 1)], for the result of an SQL [AVG]. *)
Definition avg_delay (avg : option spec_float) : pyval :=
  match avg with
  | Some f => if is_zero f then PInt 0 else PFloat (py_round1 f)
  | None => PInt 0
  end.

(** ** The observation store ([database.py])

    The three tables of [create_tables].  A table is the list of its rows in
    insertion order.  A nullable column is an [option].  Columns holding an
    instant ([timestamp], [created_at]) hold seconds since the epoch. *)

Definition seconds_per_day : Z := 86400.

(** SQLite's [date(t)]: the day the instant [t] falls on. *)
Definition date_of (t : Z) : Z := t / seconds_per_day.

Module Station.
Record row : Type := {
  id : string;                 (* TEXT PRIMARY KEY *)
  name : string;               (* TEXT NOT NULL *)
  abbr : string;               (* TEXT NOT NULL *)
  city : option string;
  county : option string;
  state : option string;
  zipcode : option string;
  created_at : Z               (* DEFAULT CURRENT_TIMESTAMP *)
}.
End Station.

Module Departure.
Record row : Type := {
  id : Z;                      (* INTEGER PRIMARY KEY AUTOINCREMENT *)
  station_id : string;         (* TEXT NOT NULL *)
  destination : string;        (* TEXT NOT NULL *)
  platform : option string;
  minutes : Z;                 (* INTEGER NOT NULL *)
  direction : string;          (* TEXT NOT NULL *)
  color : option string;
  length : option Z;
  bike_flag : option Z;
  delay : option Z;            (* INTEGER DEFAULT 0 *)
  timestamp : Z;               (* DEFAULT CURRENT_TIMESTAMP *)
  date : option Z;             (* DATE: a day *)
  created_at : Z               (* DEFAULT CURRENT_TIMESTAMP *)
}.

(** A value read from a row. *)
Inductive value : Type :=
  | Null
  | Integer (z : Z)
  | Text (s : string).

Definition of_int (o : option Z) : value :=
  match o with
  | Some z => Integer z
  | None => Null
  end.

Definition of_text (o : option string) : value :=
  match o with
  | Some s => Text s
  | None => Null
  end.

(** The columns [CREATE TABLE departures] declares: resolving a column
    name gives the way to read it from a row, or nothing when the table
    has no such column. *)
Definition column (c : string) : option (row -> value) :=
  if String.eqb c "id" then Some (fun r => Integer (id r))
  else if String.eqb c "station_id" then Some (fun r => Text (station_id r))
  else if String.eqb c "destination" then Some (fun r => Text (destination r))
  else if String.eqb c "platform" then Some (fun r => of_text (platform r))
  else if String.eqb c "minutes" then Some (fun r => Integer (minutes r))
  else if String.eqb c "direction" then Some (fun r => Text (direction r))
  else if String.eqb c "color" then Some (fun r => of_text (color r))
  else if String.eqb c "length" then Some (fun r => of_int (length r))
  else if String.eqb c "bike_flag" then Some (fun r => of_int (bike_flag r))
  else if String.eqb c "delay" then Some (fun r => of_int (delay r))
  else if String.eqb c "timestamp" then Some (fun r => Integer (timestamp r))
  else if String.eqb c "date" then Some (fun r => of_int (date r))
  else if String.eqb c "created_at" then Some (fun r => Integer (created_at r))
  else None.

Definition value_eqb (a b : value) : bool :=
  match a, b with
  | Null, Null => true
  | Integer x, Integer y => x =? y
  | Text s, Text t => String.eqb s t
  | _, _ => false
  end.
End Departure.

Module DailyStat.
Record row : Type := {
  id : Z;                      (* INTEGER PRIMARY KEY AUTOINCREMENT *)
  station_id : string;         (* TEXT NOT NULL *)
  date : Z;                    (* DATE NOT NULL *)
  total_departures : Z;
  delayed_departures : Z;
  avg_delay_minutes : spec_float;   (* REAL *)
  max_delay_minutes : Z;
  created_at : Z
}.
End DailyStat.

(** The state of the database file: the rows of the three tables and, for
    the two AUTOINCREMENT tables, the largest key ever given out
    ([sqlite_sequence]). *)
Record db : Type := {
  stations : list Station.row;
  departures : list Departure.row;
  daily_stats : list DailyStat.row;
  seq_departures : Z;
  seq_daily_stats : Z
}.

(** The file right after [create_tables] on a new file. *)
Definition empty_db : db :=
  {| stations := []; departures := []; daily_stats := [];
     seq_departures := 0; seq_daily_stats := 0 |}.

(** The key AUTOINCREMENT gives a new row: one more than the largest key
    the table holds or ever held. *)
Definition max_id (ids : list Z) : Z := fold_right Z.max 0 ids.

Definition next_id (ids : list Z) (seq : Z) : Z := Z.max (max_id ids) seq + 1.

(** What the store reads from the machine: the instant (UTC), which
    [CURRENT_TIMESTAMP] and ['now'] give, and the offset of local time,
    which [datetime.now()] applies. *)
Record wallclock : Type := { utc : Z; utc_offset : Z }.

Definition local_date (w : wallclock) : Z := date_of (utc w + utc_offset w).

(** *** [save_station] *)

(** The dictionary [save_station] takes: [id], [name] and [abbr] are read
    with [station_data[...]], the others with [.get]. *)
Record station_data : Type := {
  sd_id : string;
  sd_name : string;
  sd_abbr : string;
  sd_city : option string;
  sd_county : option string;
  sd_state : option string;
  sd_zipcode : option string
}.

Definition station_row (w : wallclock) (s : station_data) : Station.row :=
  {| Station.id := sd_id s;
     Station.name := sd_name s;
     Station.abbr := sd_abbr s;
     Station.city := sd_city s;
     Station.county := sd_county s;
     Station.state := sd_state s;
     Station.zipcode := sd_zipcode s;
     Station.created_at := utc w |}.

(** [INSERT OR REPLACE INTO stations]: the rows that hold the primary key of
    the new row are deleted, then the row is inserted. *)
Definition replace_station (r : Station.row) (t : list Station.row)
  : list Station.row :=
  (List.filter (fun x => negb (String.eqb (Station.id x) (Station.id r))) t
   ++ [r])%list.

Definition save_station (w : wallclock) (s : station_data) (d : db) : db :=
  {| stations := replace_station (station_row w s) (stations d);
     departures := departures d;
     daily_stats := daily_stats d;
     seq_departures := seq_departures d;
     seq_daily_stats := seq_daily_stats d |}.

(** *** [save_departure] *)

(** The dictionary [save_departure] takes; [dd_delay] is [None] when the
    key is absent, and [.get('delay', 0)] then gives [0]. *)
Record departure_data : Type := {
  dd_station_id : string;
  dd_destination : string;
  dd_platform : option string;
  dd_minutes : Z;
  dd_direction : string;
  dd_color : option string;
  dd_length : option Z;
  dd_bike_flag : option Z;
  dd_delay : option Z
}.

Definition departure_row (w : wallclock) (key : Z) (p : departure_data)
  : Departure.row :=
  {| Departure.id := key;
     Departure.station_id := dd_station_id p;
     Departure.destination := dd_destination p;
     Departure.platform := dd_platform p;
     Departure.minutes := dd_minutes p;
     Departure.direction := dd_direction p;
     Departure.color := dd_color p;
     Departure.length := dd_length p;
     Departure.bike_flag := dd_bike_flag p;
     Departure.delay := Some (default 0 (dd_delay p));
     Departure.timestamp := utc w;
     Departure.date := Some (local_date w);
     Departure.created_at := utc w |}.

Definition save_departure (w : wallclock) (p : departure_data) (d : db) : db :=
  let key := next_id (Departure.id <$> departures d) (seq_departures d) in
  {| stations := stations d;
     departures := (departures d ++ [departure_row w key p])%list;
     daily_stats := daily_stats d;
     seq_departures := key;
     seq_daily_stats := seq_daily_stats d |}.

(** *** SQL expressions and aggregates

    A comparison with NULL is NULL, a [CASE] takes its [ELSE] branch (NULL if
    it has none) unless the condition is true, and an aggregate skips the
    NULLs. *)

Definition sql_gt (a : option Z) (b : Z) : option bool := (fun x => b <? x) <$> a.
Definition sql_eq (a : option Z) (b : Z) : option bool := (fun x => x =? b) <$> a.
Definition sql_ne (a : option Z) (b : Z) : option bool := (fun x => negb (x =? b)) <$> a.
Definition sql_abs (a : option Z) : option Z := Z.abs <$> a.

(** [CASE WHEN c THEN a ELSE b END] *)
Definition sql_when {A} (c : option bool) (a b : A) : A :=
  match c with
  | Some true => a
  | _ => b
  end.

Definition non_null {A} (l : list (option A)) : list A := omap (fun o => o) l.

Definition total (l : list Z) : Z := fold_right Z.add 0 l.

(** [COUNT(x)] *)
Definition sql_count {A} (l : list (option A)) : Z :=
  Z.of_nat (length (non_null l)).

(** [SUM(x)]: NULL when there is nothing to add. *)
Definition sql_sum (l : list (option Z)) : option Z :=
  match non_null l with
  | [] => None
  | v => Some (total v)
  end.

(** The mean of a non-empty list of integers, as SQLite computes it: the
    sum and the count are converted to floats and divided. *)
Definition mean (v : list Z) : spec_float :=
  fdiv (float_of_Z (total v)) (float_of_Z (Z.of_nat (length v))).

(** [AVG(x)] *)
Definition sql_avg (l : list (option Z)) : option spec_float :=
  match non_null l with
  | [] => None
  | v => Some (mean v)
  end.

(** [MAX(x)] *)
Definition sql_max (l : list (option Z)) : option Z :=
  match non_null l with
  | [] => None
  | x :: v => Some (fold_right Z.max x v)
  end.

(** [COUNT(DISTINCT x)] *)
Fixpoint distinct_values (l : list Departure.value) : list Departure.value :=
  match l with
  | [] => []
  | x :: l' =>
      x :: List.filter (fun y => negb (Departure.value_eqb y x)) (distinct_values l')
  end.

Definition sql_count_distinct (l : list Departure.value) : Z :=
  Z.of_nat (length (List.filter
                      (fun x => negb (Departure.value_eqb x Departure.Null))
                      (distinct_values l))).

(** *** [update_daily_stats] *)

(** [WHERE station_id = ? AND date(created_at) = ?] *)
Definition on_day (station_id : string) (date : Z) (r : Departure.row) : bool :=
  String.eqb (Departure.station_id r) station_id
  && (date_of (Departure.created_at r) =? date).

(** The row the [SELECT] of [update_daily_stats] returns. *)
Definition day_totals (station_id : string) (date : Z) (d : db)
  : Z * option Z * option spec_float * option Z :=
  let delay := Departure.delay <$> List.filter (on_day station_id date) (departures d) in
  (Z.of_nat (length delay),
   sql_sum ((fun v => sql_when (sql_gt v 0) (Some 1) (Some 0)) <$> delay),
   sql_avg ((fun v => sql_when (sql_gt v 0) v None) <$> delay),
   sql_max ((fun v => sql_when (sql_gt v 0) v (Some 0)) <$> delay)).

(** [avg or 0], stored in a REAL column. *)
Definition real_or_0 (o : option spec_float) : spec_float :=
  match o with
  | Some f => if is_zero f then S754_zero false else f
  | None => S754_zero false
  end.

(** [INSERT OR REPLACE INTO daily_stats]: the only uniqueness the table
    declares is that of its primary key [id]. *)
Definition replace_daily_stat (r : DailyStat.row) (t : list DailyStat.row)
  : list DailyStat.row :=
  (List.filter (fun x => negb (DailyStat.id x =? DailyStat.id r)) t ++ [r])%list.

Definition daily_stat_row (w : wallclock) (key : Z) (station_id : string)
    (date : Z) (stats : Z * option Z * option spec_float * option Z)
  : DailyStat.row :=
  let '(count, delayed, avg, max) := stats in
  {| DailyStat.id := key;
     DailyStat.station_id := station_id;
     DailyStat.date := date;
     DailyStat.total_departures := count;
     DailyStat.delayed_departures := default 0 delayed;
     DailyStat.avg_delay_minutes := real_or_0 avg;
     DailyStat.max_delay_minutes := default 0 max;
     DailyStat.created_at := utc w |}.

Definition update_daily_stats (w : wallclock) (station_id : string) (date : Z)
    (d : db) : db :=
  let stats := day_totals station_id date d in
  let key := next_id (DailyStat.id <$> daily_stats d) (seq_daily_stats d) in
  {| stations := stations d;
     departures := departures d;
     daily_stats :=
       replace_daily_stat (daily_stat_row w key station_id date stats) (daily_stats d);
     seq_departures := seq_departures d;
     seq_daily_stats := key |}.

(** ** The handlers that read the store ([app.py])

    A handler opens the store and queries it inside its [try]; [store] is
    what that gives: the state of the file, or the exception of [sqlite3]. *)

(** *** [get_station_analytics] *)

Section StationAnalytics.

(** SQLite's [ROUND(x, 1)]. *)
Variable sql_round1 : spec_float -> spec_float.

(** [WHERE d.timestamp >= datetime('now', '-7 days')] *)
Definition in_window (now : Z) (r : Departure.row) : bool :=
  now - 7 * seconds_per_day <=? Departure.timestamp r.

(** The destinations of the rows, each once, in the order they first occur. *)
Fixpoint distinct (l : list string) : list string :=
  match l with
  | [] => []
  | x :: l' => x :: List.filter (fun y => negb (String.eqb y x)) (distinct l')
  end.

(** One row of the result: a destination, its [COUNT( * )], the count of its
    rows with [delay != 0], and the rounded mean of [ABS(delay)]. *)
Definition destination_stats (rows : list Departure.row) (destination : string)
  : string * Z * Z * spec_float :=
  let delay :=
    Departure.delay <$>
      List.filter (fun r => String.eqb (Departure.destination r) destination) rows in
  (destination,
   Z.of_nat (length delay),
   sql_count ((fun v => sql_when (sql_ne v 0) (Some 1) None) <$> delay),
   sql_round1 (default (float_of_Z 0) (sql_avg (sql_abs <$> delay)))).

(** [ORDER BY total_departures DESC].  SQL leaves the order of groups of
    equal size open; here they keep the order of [distinct]. *)
Fixpoint insert_desc (x : string * Z * Z * spec_float)
    (l : list (string * Z * Z * spec_float)) : list (string * Z * Z * spec_float) :=
  match l with
  | [] => [x]
  | y :: l' =>
      if y.1.1.2 <=? x.1.1.2 then x :: l else y :: insert_desc x l'
  end.

Definition order_desc (l : list (string * Z * Z * spec_float))
  : list (string * Z * Z * spec_float) :=
  fold_right insert_desc [] l.

(** The rows [cursor.fetchall()] returns. *)
Definition station_analytics_query (now : Z) (d : db)
  : list (string * Z * Z * spec_float) :=
  let rows := List.filter (in_window now) (departures d) in
  order_desc (destination_stats rows <$> distinct (Departure.destination <$> rows)).

Definition analytics_entry (stat : string * Z * Z * spec_float) : pyval :=
  let '(destination, count, delayed, avg) := stat in
  dict [("destination", PStr (if String.eqb destination "" then "Unknown" else destination));
        ("total_departures", PInt count);
        ("delayed_trains", PInt delayed);
        ("avg_delay_minutes", PFloat (if is_zero avg then S754_zero false else avg))].

Definition get_station_analytics (clock : nat -> string) (w : wallclock)
    (store : result db) : response :=
  match store with
  | Ok d =>
      match analytics_entry <$> station_analytics_query (utc w) d with
      | [] =>
          {| body := dict [("status", PStr "No data available");
                           ("timestamp", PStr (clock 0%nat));
                           ("data", PList [])];
             code := 200 |}
      | analytics =>
          {| body := dict [("status", PStr "Data available");
                           ("timestamp", PStr (clock 0%nat));
                           ("data", PList analytics)];
             code := 200 |}
      end
  | Err e =>
      {| body := dict [("status", PStr "Error");
                       ("timestamp", PStr (clock 0%nat));
                       ("error", PStr (str e));
                       ("data", PList [])];
         code := 500 |}
  end.

End StationAnalytics.

(** *** [get_performance_data] *)

(** [WHERE station_id = ? AND date(timestamp) = date('now')] *)
Definition station_today (station : string) (now : Z) (r : Departure.row) : bool :=
  String.eqb (Departure.station_id r) station
  && (date_of (Departure.timestamp r) =? date_of now).

(** The first [SELECT]: [COUNT( * )], the count of rows with [delay = 0],
    [AVG(delay)]. *)
Definition ridership_query (station : string) (now : Z) (d : db)
  : Z * Z * option spec_float :=
  let delay := Departure.delay <$> List.filter (station_today station now) (departures d) in
  (Z.of_nat (length delay),
   sql_count ((fun v => sql_when (sql_eq v 0) (Some 1) None) <$> delay),
   sql_avg delay).

(** The second [SELECT]: [COUNT(DISTINCT train_id)] and the count of rows
    with [delay > 0], over the rows of today.  The statement is compiled
    against the table, and a name the table does not declare is an error. *)
Definition system_status_query (now : Z) (d : db) : result (Z * Z) :=
  match Departure.column "train_id" with
  | None => Err (Exn OperationalError "no such column: train_id")
  | Some train_id =>
      let rows :=
        List.filter (fun r => date_of (Departure.timestamp r) =? date_of now)
          (departures d) in
      Ok (sql_count_distinct (train_id <$> rows),
          sql_count ((fun v => sql_when (sql_gt v 0) (Some 1) None)
                       <$> (Departure.delay <$> rows)))
  end.

Definition performance_data (stats : Z * Z * option spec_float)
    (system_stats : Z * Z) : result pyval :=
  let '(count, on_time, avg) := stats in
  let '(active_trains, delays) := system_stats in
  rate <~ on_time_rate on_time count ;
  Ok (dict [("ridership", PInt count);
            ("onTimeRate", rate);
            ("avgDelay", avg_delay avg);
            ("systemStatus",
              dict [("activeTrains", PInt active_trains);
                    ("delays", PInt delays);
                    ("elevators", dict [("total", PInt 50); ("down", PInt 2)]);
                    ("parking", dict [("capacity", PInt 1000);
                                      ("available", PInt 850)])])]).

(** The body of the [try]. *)
Definition get_performance_data_try (w : wallclock) (store : result db)
    (station : string) : result pyval :=
  d <~ store ;
  let stats := ridership_query station (utc w) d in
  system_stats <~ system_status_query (utc w) d ;
  data <~ performance_data stats system_stats ;
  Ok (dict [("status", PStr "success"); ("data", data)]).

Definition get_performance_data (w : wallclock) (store : result db)
    (station : string) : response :=
  match get_performance_data_try w store station with
  | Ok b => {| body := b; code := 200 |}
  | Err e =>
      {| body := dict [("status", PStr "error"); ("error", PStr (str e))];
         code := 500 |}
  end.

(** ** What the specification's statements refer to *)

(** A decimal numeral: one or more digits. *)
Fixpoint all_digits (s : string) : bool :=
  match s with
  | "" => true
  | String c s' => is_digit c && all_digits s'
  end.

Definition is_decimal (s : string) : bool :=
  negb (String.eqb s "") && all_digits s.

(** The number a decimal numeral denotes, digit by position. *)
Fixpoint decimal_value (s : string) : Z :=
  match s with
  | "" => 0
  | String c s' =>
      digit_value c * 10 ^ Z.of_nat (String.length s') + decimal_value s'
  end.

(** The minutes the feed sends: the word [Leaving], a decimal numeral (of a
    length [int] accepts), or a JSON integer. *)
Definition valid_minutes (v : pyval) : Prop :=
  match v with
  | PStr s =>
      s = "Leaving"
      \/ (is_decimal s = true /\ Z.of_nat (String.length s) <= int_max_str_digits)
  | PInt _ => True
  | _ => False
  end.

(** The minutes of the normalized record, as the specification gives them. *)
Definition expected_minutes (v : pyval) : Z :=
  match v with
  | PStr s => if String.eqb s "Leaving" then 0 else decimal_value s
  | PInt n => n
  | _ => 0
  end.

(** A payload in which the [root] key, the [station] key under it, or the
    [etd] key of the station block is missing. *)
Definition missing_keys (data : pyval) : Prop :=
  exists d : gmap string pyval,
    data = PDict d
    /\ (d !! "root" = None
        \/ (exists r : gmap string pyval,
              d !! "root" = Some (PDict r) /\ r !! "station" = None)
        \/ (exists (r block : gmap string pyval) (rest : list pyval),
              d !! "root" = Some (PDict r)
              /\ r !! "station" = Some (PList (PDict block :: rest))
              /\ block !! "etd" = None)).

(** The feed answered with a payload: a response whose status is not an
    error status and whose body is the JSON [data]. *)
Definition answers (u : upstream) (data : pyval) : Prop :=
  exists status_code http_error,
    u = Response status_code http_error (Ok data)
    /\ (400 <=? status_code) && (status_code <? 600) = false.

(** The rows of a station table that hold a given identifier. *)
Definition station_rows (id : string) (t : list Station.row) : list Station.row :=
  List.filter (fun r => String.eqb (Station.id r) id) t.

(** The rows of [daily_stats] for a station and a date. *)
Definition daily_stat_rows (station_id : string) (date : Z)
    (t : list DailyStat.row) : list DailyStat.row :=
  List.filter (fun r => String.eqb (DailyStat.station_id r) station_id
                        && (DailyStat.date r =? date)) t.

(** Departures saved one after the other, each at its own reading of the
    clock. *)
Definition save_departures (l : list (wallclock * departure_data)) (d : db) : db :=
  fold_left (fun d x => save_departure x.1 x.2 d) l d.

(** The delay a saved departure is stored with. *)
Definition stored_delay (x : wallclock * departure_data) : Z :=
  default 0 (dd_delay x.2).

Definition delayed (delays : list Z) : list Z :=
  List.filter (fun x => 0 <? x) delays.

(** The error envelope of the specification: a server-error status, and a
    body with a status field, an error message and an empty list of data. *)
Definition error_envelope (r : response) : Prop :=
  code r = 500
  /\ exists d : gmap string pyval,
       body r = PDict d
       /\ is_Some (d !! "status")
       /\ (exists msg, d !! "error" = Some (PStr msg))
       /\ (d !! "data" = Some (PList []) \/ d !! "departures" = Some (PList [])).

(** A float [r] is the share of [on_time] in [count] as a percentage
    rounded to one decimal: it is the float nearest to a decimal [k / 10]
    that lies within half a tenth of [100 * on_time / count]. *)
Definition rounded_percentage (on_time count : Z) (r : spec_float) : Prop :=
  exists k : Z,
    r = tenths false k /\ 2 * Z.abs (k * count - 1000 * on_time) <= count.

Definition float_eqb (x y : spec_float) : bool :=
  match x, y with
  | S754_zero a, S754_zero b => Bool.eqb a b
  | S754_infinity a, S754_infinity b => Bool.eqb a b
  | S754_nan, S754_nan => true
  | S754_finite a m e, S754_finite b n f => Bool.eqb a b && Pos.eqb m n && (e =? f)
  | _, _ => false
  end.

(** The decision of [rounded_percentage] for the result of [on_time_rate]:
    the decimal is one of the two around the exact percentage. *)
Definition rate_checked (on_time count : Z) : bool :=
  match on_time_rate on_time count with
  | Ok (PFloat r) =>
      let q := 1000 * on_time / count in
      existsb (fun k => float_eqb r (tenths false k)
                        && (2 * Z.abs (k * count - 1000 * on_time) <=? count))
        [q; q + 1]
  | _ => false
  end.

(** The counts the check below runs through. *)
Definition checked_counts : nat := 128.

Definition rates_checked (bound : nat) : bool :=
  forallb (fun count =>
             forallb (fun on_time => rate_checked (Z.of_nat on_time) (Z.of_nat count))
               (seq 0 (S count)))
    (seq 1 bound).

(** The store with other rows of departures. *)
Definition with_departures (d : db) (rows : list Departure.row) : db :=
  {| stations := stations d;
     departures := rows;
     daily_stats := daily_stats d;
     seq_departures := seq_departures d;
     seq_daily_stats := seq_daily_stats d |}.

(** The rows of a destination that are at most seven days old. *)
Definition recent_to (destination : string) (now : Z) (rows : list Departure.row)
  : list Departure.row :=
  List.filter (fun r => String.eqb (Departure.destination r) destination
                        && (now - 7 * seconds_per_day <=? Departure.timestamp r))
    rows.

(** ** The rest of [database.py] *)

(** *** [BartDatabase.__init__]: the path of the database file *)

Fixpoint has_slash (s : string) : bool :=
  match s with
  | "" => false
  | String c s' => Ascii.eqb c "/" || has_slash s'
  end.

Fixpoint all_slashes (s : string) : bool :=
  match s with
  | "" => true
  | String c s' => Ascii.eqb c "/" && all_slashes s'
  end.

(** [p[:p.rfind('/') + 1]]: the text up to the last slash, included. *)
Fixpoint head_of (p : string) : string :=
  match p with
  | "" => ""
  | String c p' =>
      if Ascii.eqb c "/" || has_slash p' then String c (head_of p') else ""
  end.

(** [head.rstrip('/')] *)
Fixpoint rstrip_slashes (s : string) : string :=
  match s with
  | "" => ""
  | String c s' =>
      match rstrip_slashes s' with
      | "" => if Ascii.eqb c "/" then "" else String c ""
      | r => String c r
      end
  end.

(** [os.path.dirname] *)
Definition dirname (p : string) : string :=
  let head := head_of p in
  if negb (String.eqb head "") && negb (all_slashes head)
  then rstrip_slashes head
  else head.

(** Whether a value of the environment counts as true: it is set and not
    empty. *)
Definition truthy (v : option string) : bool :=
  match v with
  | Some s => negb (String.eqb s "")
  | None => false
  end.

(** The path [__init__] connects to.  [environ] is [os.environ.get];
    [makedirs_ok dir] says whether the file system lets
    [os.makedirs(dir, exist_ok=True)] succeed for a directory name; for the
    empty name [os.makedirs] raises whatever the file system holds. *)
Definition db_path_of (environ : string -> option string)
    (makedirs_ok : string -> bool) (db_path : option string) : string :=
  let path :=
    match db_path with
    | Some p => p
    | None =>
        if truthy (environ "RAILWAY_ENVIRONMENT")
        then "/app/data/bart.db"
        else "data/bart.db"
    end in
  let dir := dirname path in
  if negb (String.eqb dir "") && makedirs_ok dir then path else "bart.db".

(** *** [get_station_stats] *)

(** [ORDER BY date DESC]: SQL leaves the order of rows of the same date
    open; here they keep the order of the table. *)
Fixpoint insert_newest (x : DailyStat.row) (l : list DailyStat.row)
  : list DailyStat.row :=
  match l with
  | [] => [x]
  | y :: l' =>
      if DailyStat.date y <=? DailyStat.date x then x :: l
      else y :: insert_newest x l'
  end.

Definition newest_first (l : list DailyStat.row) : list DailyStat.row :=
  fold_right insert_newest [] l.

(** [LIMIT n]: a negative [n] is no limit. *)
Definition sql_limit {A} (n : Z) (l : list A) : list A :=
  if n <? 0 then l else firstn (Z.to_nat n) l.

(** The columns the [SELECT] of [get_station_stats] returns. *)
Definition stat_columns (r : DailyStat.row) : Z * Z * Z * spec_float * Z :=
  (DailyStat.date r, DailyStat.total_departures r,
   DailyStat.delayed_departures r, DailyStat.avg_delay_minutes r,
   DailyStat.max_delay_minutes r).

Definition of_station (station_id : string) (r : DailyStat.row) : bool :=
  String.eqb (DailyStat.station_id r) station_id.

Definition get_station_stats (station_id : string) (days : Z) (d : db)
  : list (Z * Z * Z * spec_float * Z) :=
  stat_columns
    <$> sql_limit days
          (newest_first (List.filter (of_station station_id) (daily_stats d))).

(** ** What the further properties refer to *)

(** The reads one estimate goes through, without the clock: minutes,
    platform, direction, length. *)
Definition estimate_fields (estimate : pyval) : result (Z * pyval * pyval * Z) :=
  minutes <~ minutes_field estimate ;
  platform <~ py_getitem estimate "platform" ;
  direction <~ py_getitem estimate "direction" ;
  length <~ (l <~ py_getitem estimate "length" ; py_int l) ;
  Ok (minutes, platform, direction, length).

(** The reads one destination group goes through: its destination and its
    estimates. *)
Definition group_of (etd : pyval) : result (pyval * list pyval) :=
  destination <~ py_getitem etd "destination" ;
  estimates <~ (e <~ py_getitem etd "estimate" ; py_iter e) ;
  Ok (destination, estimates).

(** The normalized record of an estimate that was read at [timestamp]. *)
Definition departure_record (timestamp : string) (destination : pyval)
    (f : Z * pyval * pyval * Z) : pyval :=
  dict [("timestamp", PStr timestamp);
        ("destination", destination);
        ("minutes", PInt f.1.1.1);
        ("platform", f.1.1.2);
        ("direction", f.1.2);
        ("delay", PInt 0);
        ("length", PInt f.2)].

(** The records of a sequence of estimates, each with its destination: the
    k-th is stamped with the k-th reading of the clock from [n] on. *)
Fixpoint stamped (clock : nat -> string) (n : nat)
    (l : list (pyval * (Z * pyval * pyval * Z))) : list pyval :=
  match l with
  | [] => []
  | x :: l' => departure_record (clock n) x.1 x.2 :: stamped clock (S n) l'
  end.

(** A destination group as the handler reads it: the group [etd] has the
    destination [g.1] and the estimates [g.2], each given with the fields
    read from it. *)
Definition reads_as (etd : pyval)
    (g : pyval * list (pyval * (Z * pyval * pyval * Z))) : Prop :=
  group_of etd = Ok (g.1, g.2.*1)
  /\ Forall (fun ef => estimate_fields ef.1 = Ok ef.2) g.2.

(** The estimates of the groups in the order the handler meets them, each
    with the destination of its group. *)
Definition flatten (groups : list (pyval * list (pyval * (Z * pyval * pyval * Z))))
  : list (pyval * (Z * pyval * pyval * Z)) :=
  flat_map (fun g => (fun ef => (g.1, ef.2)) <$> g.2) groups.

(** A payload whose first station block holds the list [etds] of destination
    groups. *)
Definition carries (data : pyval) (etds : list pyval) : Prop :=
  exists (d r block : gmap string pyval) (rest : list pyval),
    data = PDict d
    /\ d !! "root" = Some (PDict r)
    /\ r !! "station" = Some (PList (PDict block :: rest))
    /\ block !! "etd" = Some (PList etds).

(** The entry of a station in the list [get_stations] returns. *)
Definition station_entry (station : gmap string pyval) : option pyval :=
  match station !! "name", station !! "abbr" with
  | Some name, Some abbr => Some (dict [("name", name); ("abbr", abbr)])
  | _, _ => None
  end.

(** The payload of the station list: [data['root']['stations']['station']]
    is the list [l]. *)
Definition lists_stations (data : pyval) (l : list pyval) : Prop :=
  exists d r c : gmap string pyval,
    data = PDict d
    /\ d !! "root" = Some (PDict r)
    /\ r !! "stations" = Some (PDict c)
    /\ c !! "station" = Some (PList l).

(** The primary keys of the departures are pairwise distinct. *)
Definition departure_keys_ok (d : db) : Prop :=
  List.NoDup (Departure.id <$> departures d).

(** The identifiers of the stations are pairwise distinct. *)
Definition station_ids_ok (d : db) : Prop :=
  List.NoDup (Station.id <$> stations d).

(** The rows of a day with a delay above 0. *)
Definition is_delayed (r : Departure.row) : bool :=
  match Departure.delay r with
  | Some x => 0 <? x
  | None => false
  end.

Definition positive_delays (rows : list Departure.row) : list Z :=
  delayed (non_null (Departure.delay <$> rows)).

(** A value that is neither text nor a container. *)
Definition is_scalar (v : pyval) : bool :=
  match v with
  | PNone | PBool _ | PInt _ | PFloat _ => true
  | _ => false
  end.

(** The key a station entry lacks, [name] being read first. *)
Definition missing_station_key (station : gmap string pyval) : string :=
  match station !! "name" with
  | None => "name"
  | Some _ => "abbr"
  end.

(** The date of a row [get_station_stats] returns. *)
Definition stat_date (t : Z * Z * Z * spec_float * Z) : Z := t.1.1.1.1.

(** A row is at least as recent as another. *)
Definition not_older (a b : Z * Z * Z * spec_float * Z) : Prop :=
  stat_date b <= stat_date a.

(** The rows of [daily_stats] of a station, as [get_station_stats] shows
    them. *)
Definition station_stats (station_id : string) (d : db)
  : list (Z * Z * Z * spec_float * Z) :=
  stat_columns <$> List.filter (of_station station_id) (daily_stats d).

(** The destination, the total and the delayed count of a row of the
    analytics. *)
Definition stat_destination (s : string * Z * Z * spec_float) : string := s.1.1.1.
Definition stat_total (s : string * Z * Z * spec_float) : Z := s.1.1.2.
Definition stat_delayed (s : string * Z * Z * spec_float) : Z := s.1.2.

(** The sum of a list of integers. *)
Definition sum_of (l : list Z) : Z := fold_left Z.add l 0.

(** The binary64 quotient of two integers: both are converted to binary64
    and divided there. *)
Definition quotient64 (a b : Z) : spec_float :=
  SFdiv 53 1024 (binary_normalize 53 1024 a 0 false)
    (binary_normalize 53 1024 b 0 false).

(** The average of a list of integers as a binary64 number: the quotient of
    their sum by their number, and 0.0 for no integer at all. *)
Definition average (l : list Z) : spec_float :=
  match l with
  | [] => S754_zero false
  | _ => quotient64 (sum_of l) (Z.of_nat (length l))
  end.

(** A float that does not carry the minus sign. *)
Definition unsigned_float (x : spec_float) : Prop :=
  match x with
  | S754_zero s | S754_infinity s | S754_finite s _ _ => s = false
  | S754_nan => True
  end.

(** ** Properties of the adapter *)

Section IntOfString.

Lemma digit_not_special (c : ascii) :
  is_digit c = true ->
  is_space c = false /\ Ascii.eqb c "_" = false
  /\ c <> "-"%char /\ c <> "+"%char /\ 0 <= digit_value c <= 9.
Proof.
  destruct c as [[] [] [] [] [] [] [] []]; vm_compute; intros H;
    try discriminate H; repeat split; congruence.
Qed.

Lemma lstrip_decimal (s : string) : is_decimal s = true -> lstrip s = s.
Proof.
  destruct s as [|c s]; [reflexivity|].
  unfold is_decimal; simpl. intros H.
  apply andb_prop in H as [H _].
  apply digit_not_special in H as [H _]. now rewrite H.
Qed.

Lemma rstrip_digits (s : string) : all_digits s = true -> rstrip s = s.
Proof.
  induction s as [|c s IH]; [reflexivity|].
  simpl. intros H. apply andb_prop in H as [Hc Hs].
  rewrite (IH Hs). apply digit_not_special in Hc as [Hc _].
  destruct s; [now rewrite Hc | reflexivity].
Qed.

Lemma parse_digits_value (s : string) : forall (acc : Z) (b : bool),
  all_digits s = true -> s <> "" ->
  parse_digits s acc b
  = Some (acc * 10 ^ Z.of_nat (String.length s) + decimal_value s).
Proof.
  induction s as [|c s IH]; intros acc b H Hne; [congruence|].
  simpl in H. apply andb_prop in H as [Hc Hs].
  cbn [parse_digits]. rewrite Hc.
  destruct s as [|c' s].
  - simpl. f_equal. lia.
  - rewrite IH by (auto; discriminate).
    f_equal. cbn [decimal_value String.length].
    rewrite !Nat2Z.inj_succ, !Z.pow_succ_r by lia. lia.
Qed.

Lemma count_digits_length (s : string) :
  all_digits s = true -> count_digits s = Z.of_nat (String.length s).
Proof.
  induction s as [|c s IH]; [reflexivity|].
  simpl. intros H. apply andb_prop in H as [Hc Hs].
  rewrite Hc, (IH Hs). lia.
Qed.

Lemma int_of_decimal (s : string) :
  is_decimal s = true ->
  Z.of_nat (String.length s) <= int_max_str_digits ->
  int_of_string s = Ok (decimal_value s).
Proof.
  intros Hd Hlen. unfold int_of_string.
  rewrite (lstrip_decimal s Hd).
  unfold is_decimal in Hd. apply andb_prop in Hd as [Hne Hall].
  rewrite (rstrip_digits s Hall).
  destruct s as [|c s]; [discriminate|].
  assert (Hc : is_digit c = true) by (simpl in Hall; now apply andb_prop in Hall).
  destruct (digit_not_special c Hc) as (_ & _ & Hm & Hp & _).
  assert (Hbody :
    (match String c s with
     | String "-" r => (true, r)
     | String "+" r => (false, r)
     | _ => (false, String c s)
     end) = (false, String c s)).
  { destruct c as [[] [] [] [] [] [] [] []]; try reflexivity; congruence. }
  rewrite Hbody.
  rewrite parse_digits_value by (auto; discriminate).
  rewrite count_digits_length by assumption.
  destruct (int_max_str_digits <? Z.of_nat (String.length (String c s))) eqn:E.
  - apply Z.ltb_lt in E. lia.
  - reflexivity.
Qed.

End IntOfString.

(** C2.  An estimate whose minutes are the word [Leaving] is normalized to
    the minutes 0, and any other valid value (a decimal numeral, or a JSON
    integer) to the integer it denotes.  This is the value of the expression
    the handler evaluates, and the [minutes] entry of every record the
    handler builds from the estimate, whose [delay] entry is 0. *)
Theorem minutes_normalized (estimate : gmap string pyval) (v : pyval) :
  estimate !! "minutes" = Some v ->
  valid_minutes v ->
  minutes_field (PDict estimate) = Ok (expected_minutes v)
  /\ forall clock destination n departure n',
       departure_of clock destination (PDict estimate) n = (Ok departure, n') ->
       exists d : gmap string pyval,
         departure = PDict d
         /\ d !! "minutes" = Some (PInt (expected_minutes v))
         /\ d !! "delay" = Some (PInt 0).
Proof.
  intros Hv Hvalid.
  assert (Hm : minutes_field (PDict estimate) = Ok (expected_minutes v)).
  { unfold minutes_field, py_getitem. rewrite Hv. cbn [rbind].
    destruct v as [| | z | | s | |]; try contradiction; cbn.
    - reflexivity.
    - destruct Hvalid as [-> | [Hd Hlen]]; [reflexivity|].
      unfold py_ne, is_PStr.
      destruct (String.eqb s "Leaving") eqn:E.
      + apply String.eqb_eq in E. subst s. discriminate Hd.
      + cbn. now apply int_of_decimal. }
  split; [exact Hm|].
  intros clock destination n departure n'.
  unfold departure_of, bind, now, lift, ret. rewrite Hm.
  destruct (py_getitem (PDict estimate) "platform") as [platform|]; [|discriminate].
  destruct (py_getitem (PDict estimate) "direction") as [direction|]; [|discriminate].
  destruct (l <~ py_getitem (PDict estimate) "length"; py_int l) as [len|];
    [|discriminate].
  intros [= <- _]. eexists. split; [reflexivity|]. split; reflexivity.
Qed.

Lemma minutes_normalized_witness :
  minutes_field (dict [("minutes", PStr "Leaving")]) = Ok 0
  /\ minutes_field (dict [("minutes", PStr "12")]) = Ok 12.
Proof.
  split.
  - apply (minutes_normalized (list_to_map [("minutes", PStr "Leaving")])
             (PStr "Leaving")).
    + reflexivity.
    + left. reflexivity.
  - apply (minutes_normalized (list_to_map [("minutes", PStr "12")]) (PStr "12")).
    + reflexivity.
    + right. split; [reflexivity | vm_compute; discriminate].
Defined.

(** C3.  When the feed answers with a payload in which the [root] key, the
    [station] key or the [etd] key is missing, the departures handler
    returns the success response (status [Data available], HTTP 200) with an
    empty list of departures. *)
Theorem missing_keys_no_departures (clock : nat -> string)
    (feed : string -> upstream) (station : string) (data : pyval) :
  answers (feed station) data ->
  missing_keys data ->
  get_departures clock feed station
  = {| body := dict [("status", PStr "Data available");
                     ("timestamp", PStr (clock 0%nat));
                     ("departures", PList [])];
       code := 200 |}.
Proof.
  intros (status_code & http_error & Hfeed & Hstatus) (d & -> & Hmiss).
  unfold get_departures, get_departures_try, bind, lift, fetch_json.
  rewrite Hfeed, Hstatus.
  unfold collect_departures, bind, lift, ret, now, py_contains, py_getitem.
  destruct Hmiss as [Hroot | [(r & Hroot & Hst) | (r & block & rest & Hroot & Hst & Hetd)]].
  - rewrite Hroot. reflexivity.
  - rewrite Hroot. cbn. rewrite Hst. reflexivity.
  - rewrite Hroot. cbn. rewrite Hst. cbn. rewrite Hetd. reflexivity.
Qed.

Lemma missing_keys_no_departures_witness :
  get_departures (fun _ => "2024-01-01T00:00:00")
    (fun _ => Response 200 "" (Ok (dict [("root", dict [])]))) "EMBR"
  = {| body := dict [("status", PStr "Data available");
                     ("timestamp", PStr "2024-01-01T00:00:00");
                     ("departures", PList [])];
       code := 200 |}.
Proof.
  apply (missing_keys_no_departures (fun _ => "2024-01-01T00:00:00")
           (fun _ => Response 200 "" (Ok (dict [("root", dict [])]))) "EMBR"
           (dict [("root", dict [])])).
  - exists 200, "". split; reflexivity.
  - eexists. split; [reflexivity|]. right. left.
    eexists. split; reflexivity.
Defined.

(** C10.  When the feed answers with a payload whose [station] key is
    present and maps to an empty list of station blocks, taking the first
    block raises the index error, and the departures handler returns the
    error envelope (status [Error], the message of the index error, no
    departures) with HTTP 500. *)
Theorem empty_station_list_is_error (clock : nat -> string)
    (feed : string -> upstream) (station : string) (d r : gmap string pyval) :
  answers (feed station) (PDict d) ->
  d !! "root" = Some (PDict r) ->
  r !! "station" = Some (PList []) ->
  get_departures clock feed station
  = {| body := dict [("status", PStr "Error");
                     ("timestamp", PStr (clock 0%nat));
                     ("error", PStr "list index out of range");
                     ("departures", PList [])];
       code := 500 |}
  /\ get_departures_try clock feed station 0%nat
     = (Err (Exn IndexError "list index out of range"), 0%nat).
Proof.
  intros (status_code & http_error & Hfeed & Hstatus) Hroot Hst.
  unfold get_departures, get_departures_try, bind, lift, fetch_json.
  rewrite Hfeed, Hstatus.
  unfold collect_departures, bind, lift, ret, now, py_contains, py_getitem.
  rewrite Hroot. cbn. rewrite Hst. cbn. split; reflexivity.
Qed.

Lemma empty_station_list_is_error_witness :
  code (get_departures (fun _ => "2024-01-01T00:00:00")
          (fun _ => Response 200 ""
                      (Ok (dict [("root", dict [("station", PList [])])])))
          "EMBR") = 500.
Proof.
  rewrite (proj1 (empty_station_list_is_error (fun _ => "2024-01-01T00:00:00")
            (fun _ => Response 200 ""
                        (Ok (dict [("root", dict [("station", PList [])])])))
            "EMBR"
            (list_to_map [("root", dict [("station", PList [])])])
            (list_to_map [("station", PList [])])
            ltac:(exists 200, ""; split; reflexivity)
            ltac:(reflexivity) ltac:(reflexivity))).
  reflexivity.
Defined.

(** ** Properties of the store *)

Section Tables.

Lemma filter_out_then_in {A} (key : A -> string) (k : string) (l : list A) :
  List.filter (fun r => String.eqb (key r) k)
    (List.filter (fun r => negb (String.eqb (key r) k)) l) = [].
Proof.
  induction l as [|x l IH]; [reflexivity|].
  simpl. destruct (String.eqb (key x) k) eqn:E; simpl; [exact IH|].
  now rewrite E.
Qed.

Lemma max_id_bound (ids : list Z) (x : Z) : In x ids -> x <= max_id ids.
Proof.
  induction ids as [|y ids IH]; simpl; [tauto|].
  intros [-> | H]; [lia|]. specialize (IH H). lia.
Qed.

(** The key AUTOINCREMENT gives is held by no row of the table. *)
Lemma next_id_fresh (ids : list Z) (seq x : Z) :
  In x ids -> (x =? next_id ids seq) = false.
Proof.
  intros H. apply max_id_bound in H. unfold next_id.
  apply Z.eqb_neq. lia.
Qed.

(** So the conflict clause of the insertion into [daily_stats] deletes
    nothing: the row is added to the table. *)
Lemma replace_daily_stat_fresh (r : DailyStat.row) (t : list DailyStat.row)
    (seq : Z) :
  DailyStat.id r = next_id (DailyStat.id <$> t) seq ->
  replace_daily_stat r t = (t ++ [r])%list.
Proof.
  intros Hkey. unfold replace_daily_stat. f_equal.
  rewrite Hkey. clear Hkey.
  assert (H : forall x, In x t -> In (DailyStat.id x) (DailyStat.id <$> t)).
  { clear. induction t as [|y t IH]; simpl; [tauto|].
    intros x [-> | Hx]; [now left | right; now apply IH]. }
  revert H. generalize (DailyStat.id <$> t) as ids.
  induction t as [|x t IH]; intros ids H; [reflexivity|].
  simpl. rewrite (next_id_fresh ids seq (DailyStat.id x)) by (apply H; now left).
  simpl. f_equal. apply (IH ids). intros y Hy. apply H. now right.
Qed.

Lemma daily_stats_update (w : wallclock) (station_id : string) (date : Z)
    (d : db) :
  daily_stats (update_daily_stats w station_id date d)
  = (daily_stats d
     ++ [daily_stat_row w (next_id (DailyStat.id <$> daily_stats d)
                             (seq_daily_stats d))
           station_id date (day_totals station_id date d)])%list.
Proof.
  unfold update_daily_stats; cbn [daily_stats].
  apply replace_daily_stat_fresh with (seq := seq_daily_stats d).
  unfold daily_stat_row.
  destruct (day_totals station_id date d) as [[[? ?] ?] ?]. reflexivity.
Qed.

Lemma daily_stat_row_key (w : wallclock) (key : Z) (station_id : string)
    (date : Z) (stats : Z * option Z * option spec_float * option Z) :
  DailyStat.station_id (daily_stat_row w key station_id date stats) = station_id
  /\ DailyStat.date (daily_stat_row w key station_id date stats) = date.
Proof. destruct stats as [[[? ?] ?] ?]. split; reflexivity. Qed.

End Tables.



(** C6, as the code behaves.  Recomputing the daily stats twice for the
    same station and date adds two rows to [daily_stats] for that key: each
    recomputation inserts a row under a new [id], the only column the table
    declares unique, so nothing is replaced. *)
Theorem update_daily_stats_twice (w1 w2 : wallclock) (station_id : string)
    (date : Z) (d : db) :
  length (daily_stat_rows station_id date
            (daily_stats (update_daily_stats w2 station_id date
                            (update_daily_stats w1 station_id date d))))
  = S (S (length (daily_stat_rows station_id date (daily_stats d)))).
Proof.
  rewrite !daily_stats_update. unfold daily_stat_rows.
  rewrite !List.filter_app. cbn [List.filter].
  repeat match goal with
  | |- context [daily_stat_row ?w ?k ?s ?dt ?st] =>
      let H := fresh in
      destruct (daily_stat_row_key w k s dt st) as [H ?];
      rewrite H; clear H;
      match goal with H' : DailyStat.date _ = _ |- _ => rewrite H'; clear H' end
  end.
  rewrite String.eqb_refl, Z.eqb_refl. cbn [andb].
  rewrite !length_app. cbn [length]. lia.
Qed.

(** The same on a new store: two recomputations, two rows for the key. *)
Example update_daily_stats_twice_new_store :
  let w := {| utc := 1704067200; utc_offset := 0 |} in
  length (daily_stat_rows "EMBR" 19723
            (daily_stats (update_daily_stats w "EMBR" 19723
                            (update_daily_stats w "EMBR" 19723 empty_db))))
  = 2%nat.
Proof. reflexivity. Qed.

Section Averages.

Lemma binary_round_aux_sign (s : bool) (m e : Z) (l : location) :
  binary_round_aux prec emax s m e l = S754_nan
  \/ match binary_round_aux prec emax s m e l with
     | S754_zero s' | S754_infinity s' | S754_finite s' _ _ => s' = s
     | S754_nan => True
     end.
Proof.
  unfold binary_round_aux.
  destruct (shr_fexp prec emax m e l) as [mrs' e'].
  destruct (shr_fexp prec emax _ e' loc_Exact) as [mrs'' e''].
  destruct (shr_m mrs''); [right; reflexivity | | left; reflexivity].
  destruct (e'' <=? emax - prec); right; reflexivity.
Qed.

Lemma float_of_Z_unsigned (z : Z) : 0 <= z -> unsigned_float (float_of_Z z).
Proof.
  intros Hz. unfold float_of_Z, binary_normalize.
  destruct z as [|p|p]; [reflexivity | | lia].
  unfold binary_round.
  destruct (shl_align p 0 _) as [mz ez].
  destruct (binary_round_aux_sign false (Z.pos mz) ez loc_Exact) as [H | H].
  - now rewrite H.
  - destruct (binary_round_aux prec emax false (Z.pos mz) ez loc_Exact);
      exact H.
Qed.

Lemma fdiv_unsigned (x y : spec_float) :
  unsigned_float x -> unsigned_float y -> unsigned_float (fdiv x y).
Proof.
  unfold fdiv.
  destruct x as [sx|sx| |sx mx ex], y as [sy|sy| |sy my ey]; cbn;
    try (intros -> ->; reflexivity); try (intros _ _; exact I);
    try (intros -> _; exact I); try (intros _ ->; exact I).
  intros -> ->.
  destruct (SFdiv_core_binary prec emax (Z.pos mx) ex (Z.pos my) ey)
    as [[mz ez] lz].
  destruct (binary_round_aux_sign (xorb false false) mz ez lz) as [H | H].
  - now rewrite H.
  - destruct (binary_round_aux prec emax (xorb false false) mz ez lz); exact H.
Qed.

(** A value that carries no minus sign is stored as it is. *)
Lemma real_or_0_unsigned (x : spec_float) :
  unsigned_float x -> real_or_0 (Some x) = x.
Proof.
  destruct x as [s|s| |s m e]; cbn; try reflexivity. now intros ->.
Qed.

Lemma total_is_sum_of (l : list Z) : total l = sum_of l.
Proof.
  unfold total, sum_of.
  enough (H : forall a, fold_left Z.add l a = a + fold_right Z.add 0 l)
    by (now rewrite H).
  induction l as [|x l IH]; intros a; simpl; [lia|].
  rewrite IH. lia.
Qed.

Lemma total_delayed_nonneg (l : list Z) : 0 <= total (delayed l).
Proof.
  unfold total, delayed.
  induction l as [|x l IH]; simpl; [lia|].
  destruct (0 <? x) eqn:E; simpl; [apply Z.ltb_lt in E|]; lia.
Qed.

(** What [update_daily_stats] stores as average is the average of the
    delays above 0. *)
Lemma stored_average (l : list Z) :
  real_or_0 match delayed l with
            | [] => None
            | v => Some (mean v)
            end
  = average (delayed l).
Proof.
  pose proof (total_delayed_nonneg l) as Hsum.
  destruct (delayed l) as [|x v] eqn:E; [reflexivity|].
  rewrite real_or_0_unsigned.
  - unfold mean, average, quotient64. rewrite total_is_sum_of. reflexivity.
  - apply fdiv_unsigned; apply float_of_Z_unsigned; [exact Hsum | lia].
Qed.

End Averages.

Section DayTotals.

(** The aggregates of [update_daily_stats] over rows whose delay is not
    NULL, in terms of the delayed rows. *)

Lemma total_flags (delays : list Z) :
  total (non_null ((fun v => sql_when (sql_gt v 0) (Some 1) (Some 0))
                     <$> (Some <$> delays)))
  = Z.of_nat (length (delayed delays)).
Proof.
  unfold total, non_null, delayed.
  induction delays as [|x l IH]; [reflexivity|].
  cbn in *. destruct (0 <? x); cbn in *; lia.
Qed.

Lemma sum_flags (delays : list Z) :
  default 0 (sql_sum ((fun v => sql_when (sql_gt v 0) (Some 1) (Some 0))
                        <$> (Some <$> delays)))
  = Z.of_nat (length (delayed delays)).
Proof.
  unfold sql_sum. rewrite <- total_flags.
  destruct (non_null _); reflexivity.
Qed.

Lemma non_null_delayed (delays : list Z) :
  non_null ((fun v => sql_when (sql_gt v 0) v None) <$> (Some <$> delays))
  = delayed delays.
Proof.
  unfold non_null, delayed.
  induction delays as [|x l IH]; [reflexivity|].
  cbn in *. destruct (0 <? x); cbn in *; now rewrite IH.
Qed.

Lemma avg_delayed (delays : list Z) :
  sql_avg ((fun v => sql_when (sql_gt v 0) v None) <$> (Some <$> delays))
  = match delayed delays with
    | [] => None
    | v => Some (mean v)
    end.
Proof. unfold sql_avg. now rewrite non_null_delayed. Qed.

Lemma max_id_nonneg (l : list Z) : 0 <= max_id l.
Proof. induction l; simpl; lia. Qed.

Lemma max_from (x : Z) (v : list Z) :
  0 <= x -> fold_right Z.max x v = Z.max x (max_id v).
Proof.
  intros Hx. induction v as [|y v IH]; simpl; [lia|].
  rewrite IH. lia.
Qed.

Lemma max_clipped (delays : list Z) :
  default 0 (sql_max ((fun v => sql_when (sql_gt v 0) v (Some 0))
                        <$> (Some <$> delays)))
  = max_id (delayed delays).
Proof.
  unfold sql_max.
  assert (H : non_null ((fun v => sql_when (sql_gt v 0) v (Some 0))
                          <$> (Some <$> delays))
              = (fun x => if 0 <? x then x else 0) <$> delays).
  { unfold non_null.
    induction delays as [|x l IH]; [reflexivity|].
    cbn in *. destruct (0 <? x); cbn in *; now rewrite IH. }
  rewrite H. clear H.
  assert (H : max_id ((fun x => if 0 <? x then x else 0) <$> delays)
              = max_id (delayed delays)).
  { unfold delayed.
    induction delays as [|x l IH]; [reflexivity|].
    cbn [fmap list_fmap List.filter].
    destruct (0 <? x) eqn:E.
    - change (Z.max x (max_id ((fun x => if 0 <? x then x else 0) <$> l))
              = Z.max x (max_id (List.filter (fun x => 0 <? x) l))).
      now rewrite IH.
    - change (Z.max 0 (max_id ((fun x => if 0 <? x then x else 0) <$> l))
              = max_id (List.filter (fun x => 0 <? x) l)).
      rewrite IH.
      pose proof (max_id_nonneg (List.filter (fun x => 0 <? x) l)). lia. }
  rewrite <- H.
  destruct delays as [|x l]; [reflexivity|].
  cbn [fmap list_fmap default max_id fold_right].
  rewrite max_from by (destruct (0 <? x) eqn:E; [apply Z.ltb_lt in E|]; lia).
  reflexivity.
Qed.

Lemma on_day_departure_row (w : wallclock) (key : Z) (p : departure_data) :
  on_day (dd_station_id p) (date_of (utc w)) (departure_row w key p) = true.
Proof.
  unfold on_day. cbn [departure_row Departure.station_id Departure.created_at].
  now rewrite String.eqb_refl, Z.eqb_refl.
Qed.

(** The rows of a station and day after saving departures of that station
    on that day: those of before, then the saved ones. *)
Lemma delays_after_save (station : string) (date : Z)
    (inserts : list (wallclock * departure_data)) : forall d : db,
  Forall (fun x => dd_station_id x.2 = station /\ date_of (utc x.1) = date)
    inserts ->
  Departure.delay <$> List.filter (on_day station date)
                        (departures (save_departures inserts d))
  = ((Departure.delay <$> List.filter (on_day station date) (departures d))
     ++ (Some <$> (stored_delay <$> inserts)))%list.
Proof.
  induction inserts as [|[w p] l IH]; intros d H.
  - cbn. now rewrite app_nil_r.
  - inversion H as [|? ? [Hs Hd] Hl]; subst. cbn [fst snd] in *.
    cbn [save_departures fold_left]. change (fold_left _ l ?x) with (save_departures l x).
    rewrite IH by assumption.
    unfold save_departure; cbn [departures fst snd].
    rewrite List.filter_app, fmap_app. cbn [List.filter].
    rewrite on_day_departure_row. cbn [fmap list_fmap].
    rewrite <- app_assoc. reflexivity.
Qed.

Lemma filter_none {A} (f : A -> bool) (l : list A) :
  Forall (fun x => f x = false) l -> List.filter f l = [].
Proof.
  induction 1 as [|x l Hx _ IH]; [reflexivity|].
  simpl. now rewrite Hx.
Qed.

End DayTotals.

(** When the creation instants of the saved rows fall on the date of the
    recomputation.  On a store that holds no departure of the station created
    on the date, saving N departures of the station whose creation instants
    (UTC) fall on that date and then recomputing the daily stats of the
    station and date adds the [daily_stats] row of that key with:
    [total_departures] N, [delayed_departures] the number of saved rows
    with [delay > 0], and the average and the maximum of the delays of those
    delayed rows, both 0 when no row is delayed. *)
Theorem daily_stats_after_inserts (station : string) (date : Z)
    (inserts : list (wallclock * departure_data)) (w : wallclock) (d : db) :
  Forall (fun r => on_day station date r = false) (departures d) ->
  Forall (fun x => dd_station_id x.2 = station /\ date_of (utc x.1) = date)
    inserts ->
  exists r : DailyStat.row,
    last (daily_stats (update_daily_stats w station date
                         (save_departures inserts d))) = Some r
    /\ DailyStat.station_id r = station
    /\ DailyStat.date r = date
    /\ DailyStat.total_departures r = Z.of_nat (length inserts)
    /\ DailyStat.delayed_departures r
       = Z.of_nat (length (delayed (stored_delay <$> inserts)))
    /\ DailyStat.avg_delay_minutes r = average (delayed (stored_delay <$> inserts))
    /\ DailyStat.max_delay_minutes r = max_id (delayed (stored_delay <$> inserts)).
Proof.
  intros Hold Hnew. eexists. rewrite daily_stats_update, last_snoc.
  split; [reflexivity|].
  unfold day_totals.
  rewrite (delays_after_save station date inserts d Hnew).
  rewrite (filter_none _ _ Hold). cbn [fmap list_fmap app].
  cbn [daily_stat_row DailyStat.station_id DailyStat.date
       DailyStat.total_departures DailyStat.delayed_departures
       DailyStat.avg_delay_minutes DailyStat.max_delay_minutes].
  rewrite sum_flags, avg_delayed, max_clipped, !length_fmap, stored_average.
  repeat split; reflexivity.
Qed.

Lemma daily_stats_after_inserts_witness :
  let w := {| utc := 1704067200; utc_offset := 0 |} in
  let p delay :=
    {| dd_station_id := "EMBR"; dd_destination := "Daly City";
       dd_platform := None; dd_minutes := 5; dd_direction := "South";
       dd_color := None; dd_length := None; dd_bike_flag := None;
       dd_delay := delay |} in
  exists r : DailyStat.row,
    last (daily_stats (update_daily_stats w "EMBR" 19723
            (save_departures [(w, p None); (w, p (Some 4)); (w, p (Some 7))]
               empty_db))) = Some r
    /\ DailyStat.total_departures r = 3
    /\ DailyStat.delayed_departures r = 2
    /\ DailyStat.avg_delay_minutes r = S754_finite false 6192449487634432 (-50)
    /\ DailyStat.max_delay_minutes r = 7.
Proof.
  intros w p.
  destruct (daily_stats_after_inserts "EMBR" 19723
              [(w, p None); (w, p (Some 4)); (w, p (Some 7))] w empty_db)
    as (r & Hlast & _ & _ & Htotal & Hdelayed & Havg & Hmax).
  - constructor.
  - repeat constructor.
  - exists r. repeat split; assumption.
Defined.

(** ** Properties of the handlers that read the store *)

(** The columns the other queries of the two files name are all declared by
    [CREATE TABLE departures]. *)
Lemma queried_columns_declared :
  Forall (fun c => is_Some (Departure.column c))
    ["station_id"; "destination"; "delay"; "timestamp"; "created_at"].
Proof. repeat constructor; eexists; reflexivity. Qed.

(** C1, as the code behaves.  Whatever the store holds, the performance
    snapshot does not return a performance object: its second query names
    the column [train_id], which the [departures] table does not declare,
    so the query raises and the handler returns the error response with
    HTTP 500. *)
Theorem get_performance_data_fails (w : wallclock) (d : db) (station : string) :
  get_performance_data w (Ok d) station
  = {| body := dict [("status", PStr "error");
                     ("error", PStr "no such column: train_id")];
       code := 500 |}.
Proof. reflexivity. Qed.

Section OnTimeRate.

Lemma float_eqb_eq (x y : spec_float) : float_eqb x y = true -> x = y.
Proof.
  destruct x as [a|a| |a m e], y as [b|b| |b n f]; simpl; try discriminate;
    try reflexivity.
  - intros H. apply Bool.eqb_prop in H. now subst.
  - intros H. apply Bool.eqb_prop in H. now subst.
  - intros H. apply andb_prop in H as [H He]. apply andb_prop in H as [Hs Hm].
    apply Bool.eqb_prop in Hs. apply Pos.eqb_eq in Hm. apply Z.eqb_eq in He.
    now subst.
Qed.

Lemma rate_checked_sound (on_time count : Z) :
  rate_checked on_time count = true ->
  exists r, on_time_rate on_time count = Ok (PFloat r)
            /\ rounded_percentage on_time count r.
Proof.
  unfold rate_checked.
  destruct (on_time_rate on_time count) as [[| | | r | | |]|]; try discriminate.
  intros H. apply existsb_exists in H as (k & _ & H).
  apply andb_prop in H as [Hr Hk].
  exists r. split; [reflexivity|]. exists k.
  split; [now apply float_eqb_eq | now apply Z.leb_le].
Qed.

Lemma rates_checked_sound (bound : nat) (on_time count : Z) :
  rates_checked bound = true ->
  0 < count <= Z.of_nat bound -> 0 <= on_time <= count ->
  rate_checked on_time count = true.
Proof.
  unfold rates_checked. intros H Hc Ha.
  rewrite forallb_forall in H.
  specialize (H (Z.to_nat count)). rewrite forallb_forall in H.
  rewrite <- (Z2Nat.id count), <- (Z2Nat.id on_time) by lia.
  apply H; apply in_seq; lia.
Qed.

Lemma rates_checked_upto : rates_checked checked_counts = true.
Proof. vm_cast_no_check (eq_refl true). Qed.

End OnTimeRate.

(** C7.  The on-time rate never fails on a division by zero (the only
    exception its division can raise is the overflow of the quotient);
    with no departure today it is 0; otherwise it is the float
    [on_time / count * 100] rounded to one decimal by [round]; with 7
    on-time departures out of 10 it is 70.0; and the rounded float is the one
    nearest to a decimal within half a tenth of the exact percentage
    [100 * on_time / count] (evaluated for every [count] up to
    [checked_counts]). *)
Theorem on_time_rate_correct :
  (forall on_time count, count <= 0 -> on_time_rate on_time count = Ok (PInt 0))
  /\ (forall on_time count e,
        on_time_rate on_time count = Err e ->
        exn_kind_of e = OverflowError /\ 0 < count)
  /\ (forall on_time count q,
        0 < count -> py_truediv on_time count = Ok q ->
        on_time_rate on_time count
        = Ok (PFloat (py_round1 (fmul q (float_of_Z 100)))))
  /\ on_time_rate 7 10 = Ok (PFloat (float_of_Z 70))
  /\ (forall on_time count,
        0 < count <= Z.of_nat checked_counts -> 0 <= on_time <= count ->
        exists r, on_time_rate on_time count = Ok (PFloat r)
                  /\ rounded_percentage on_time count r).
Proof.
  split; [|split; [|split; [|split]]].
  - intros on_time count Hc. unfold on_time_rate.
    destruct (0 <? count) eqn:E; [apply Z.ltb_lt in E; lia | reflexivity].
  - intros on_time count e. unfold on_time_rate.
    destruct (0 <? count) eqn:E; [apply Z.ltb_lt in E | discriminate].
    unfold py_truediv.
    destruct (count =? 0) eqn:E0; [apply Z.eqb_eq in E0; lia|].
    destruct (fdiv (exact false on_time) (exact false count));
      cbn; intros [= <-] || discriminate.
    split; [reflexivity | assumption].
  - intros on_time count q Hc Hq. unfold on_time_rate.
    apply Z.ltb_lt in Hc. now rewrite Hc, Hq.
  - vm_compute. reflexivity.
  - intros on_time count Hc Ha. apply rate_checked_sound.
    apply (rates_checked_sound checked_counts); auto using rates_checked_upto.
Qed.

Lemma on_time_rate_correct_witness :
  on_time_rate 3 0 = Ok (PInt 0)
  /\ exists r, on_time_rate 45 48 = Ok (PFloat r) /\ rounded_percentage 45 48 r.
Proof.
  split.
  - apply (proj1 on_time_rate_correct 3 0). lia.
  - apply (proj2 (proj2 (proj2 (proj2 on_time_rate_correct))) 45 48);
      unfold checked_counts; lia.
Defined.

Section AnalyticsWindow.

Lemma in_insert_desc (x y : string * Z * Z * spec_float)
    (l : list (string * Z * Z * spec_float)) :
  In y (insert_desc x l) -> y = x \/ In y l.
Proof.
  induction l as [|z l IH]; simpl.
  - intros [<- | []]. now left.
  - destruct (z.1.1.2 <=? x.1.1.2); simpl.
    + intros [<- | H]; [now left | now right].
    + intros [<- | H]; [right; now left|].
      destruct (IH H) as [-> | H']; [now left | right; now right].
Qed.

Lemma in_order_desc (y : string * Z * Z * spec_float)
    (l : list (string * Z * Z * spec_float)) :
  In y (order_desc l) -> In y l.
Proof.
  induction l as [|x l IH]; simpl; [tauto|].
  intros H. apply in_insert_desc in H as [-> | H]; [now left | right; auto].
Qed.

Lemma in_distinct (x : string) (l : list string) : In x (distinct l) -> In x l.
Proof.
  induction l as [|y l IH]; simpl; [tauto|].
  intros [-> | H]; [now left|].
  apply List.filter_In in H as [H _]. right. auto.
Qed.

Lemma in_fmap {A B} (f : A -> B) (y : B) (l : list A) :
  In y (f <$> l) -> exists x, y = f x /\ In x l.
Proof.
  induction l as [|x l IH]; simpl; [tauto|].
  intros [<- | H]; [exists x; split; [reflexivity | now left]|].
  destruct (IH H) as (x' & -> & Hx'). exists x'. split; [reflexivity | now right].
Qed.

Lemma filter_filter {A} (f g : A -> bool) (l : list A) :
  List.filter f (List.filter g l) = List.filter (fun x => f x && g x) l.
Proof.
  induction l as [|x l IH]; [reflexivity|].
  simpl. destruct (g x); simpl.
  - rewrite andb_true_r. destruct (f x); now rewrite IH.
  - now rewrite andb_false_r.
Qed.

Lemma filter_nonempty {A} (f : A -> bool) (x : A) (l : list A) :
  In x l -> f x = true -> (0 < length (List.filter f l))%nat.
Proof.
  induction l as [|y l IH]; simpl; [tauto|].
  intros [-> | H] Hx.
  - rewrite Hx. simpl. lia.
  - destruct (f y); simpl; [lia | auto].
Qed.

(** A row of the result counts the rows of its destination that are at
    most seven days old, and there is at least one. *)
Lemma station_analytics_counts (sql_round1 : spec_float -> spec_float)
    (now : Z) (d : db) (stat : string * Z * Z * spec_float) :
  In stat (station_analytics_query sql_round1 now d) ->
  stat.1.1.2 = Z.of_nat (length (recent_to stat.1.1.1 now (departures d)))
  /\ 0 < stat.1.1.2.
Proof.
  unfold station_analytics_query. intros H.
  apply in_order_desc, in_fmap in H as (dst & -> & Hdst).
  apply in_distinct, in_fmap in Hdst as (r & -> & Hr).
  unfold destination_stats; cbn [fst snd].
  rewrite length_fmap, filter_filter.
  change (List.filter _ (departures d))
    with (recent_to (Departure.destination r) now (departures d)).
  split; [reflexivity|].
  apply List.filter_In in Hr as [Hr Hw].
  assert (0 < length (recent_to (Departure.destination r) now (departures d)))%nat.
  { apply (filter_nonempty _ r); [assumption|].
    rewrite String.eqb_refl. exact Hw. }
  lia.
Qed.

Lemma old_row_not_in_window (now : Z) (r : Departure.row) :
  Departure.timestamp r < now - 7 * seconds_per_day -> in_window now r = false.
Proof. intros H. unfold in_window. apply Z.leb_gt. exact H. Qed.

End AnalyticsWindow.

Section Groups.

Lemma insert_desc_perm (x : string * Z * Z * spec_float)
    (l : list (string * Z * Z * spec_float)) :
  Permutation (insert_desc x l) (x :: l).
Proof.
  induction l as [|y l IH]; simpl; [reflexivity|].
  destruct (y.1.1.2 <=? x.1.1.2); [reflexivity|].
  rewrite IH. apply perm_swap.
Qed.

Lemma order_desc_perm (l : list (string * Z * Z * spec_float)) :
  Permutation (order_desc l) l.
Proof.
  induction l as [|x l IH]; simpl; [reflexivity|].
  rewrite insert_desc_perm. now constructor.
Qed.

Lemma insert_desc_sorted (x : string * Z * Z * spec_float)
    (l : list (string * Z * Z * spec_float)) :
  StronglySorted (fun a b => stat_total b <= stat_total a) l ->
  StronglySorted (fun a b => stat_total b <= stat_total a) (insert_desc x l).
Proof.
  unfold stat_total.
  induction l as [|y l IH]; simpl; intros H.
  - constructor; constructor.
  - apply StronglySorted_inv in H as [Hl Hy].
    destruct (y.1.1.2 <=? x.1.1.2) eqn:E.
    + apply Z.leb_le in E. constructor; [constructor; assumption|].
      constructor; [exact E|].
      eapply List.Forall_impl; [|exact Hy]. cbn. intros z Hz. lia.
    + apply Z.leb_gt in E. constructor; [auto|].
      eapply Permutation_Forall; [symmetry; apply insert_desc_perm|].
      constructor; [lia | exact Hy].
Qed.

Lemma order_desc_sorted (l : list (string * Z * Z * spec_float)) :
  StronglySorted (fun a b => stat_total b <= stat_total a) (order_desc l).
Proof.
  induction l as [|x l IH]; simpl; [constructor|].
  now apply insert_desc_sorted.
Qed.

Lemma distinct_in (x : string) (l : list string) : In x l -> In x (distinct l).
Proof.
  induction l as [|y l IH]; simpl; [tauto|].
  intros [-> | H]; [now left|].
  destruct (String.eqb x y) eqn:E.
  - apply String.eqb_eq in E. now left.
  - right. apply List.filter_In. split; [auto | now rewrite E].
Qed.

Lemma distinct_NoDup (l : list string) : List.NoDup (distinct l).
Proof.
  induction l as [|y l IH]; simpl; constructor.
  - intros H. apply List.filter_In in H as [_ H].
    now rewrite String.eqb_refl in H.
  - now apply List.NoDup_filter.
Qed.

Lemma total_perm (l k : list Z) : Permutation l k -> total l = total k.
Proof. unfold total. induction 1; simpl; lia. Qed.

Lemma length_filter_either {A} (f g : A -> bool) (l : list A) :
  (forall x, In x l -> f x = true -> g x = false) ->
  length (List.filter (fun x => f x || g x) l)
  = (length (List.filter f l) + length (List.filter g l))%nat.
Proof.
  induction l as [|x l IH]; intros H; [reflexivity|].
  simpl. destruct (f x) eqn:Ef.
  - rewrite (H x (or_introl eq_refl) Ef). simpl.
    rewrite IH; [reflexivity|]. intros y Hy. apply H. now right.
  - simpl. destruct (g x); simpl; rewrite IH; try lia;
      intros y Hy; apply H; now right.
Qed.

(** The rows to the destinations [ks], counted destination by destination. *)
Lemma counts_add_up (rows : list Departure.row) (ks : list string) :
  List.NoDup ks ->
  total ((fun k => Z.of_nat
                     (length (List.filter
                                (fun r => String.eqb (Departure.destination r) k)
                                rows))) <$> ks)
  = Z.of_nat (length (List.filter
                        (fun r => existsb (String.eqb (Departure.destination r)) ks)
                        rows)).
Proof.
  induction 1 as [|k ks Hk _ IH]; cbn [fmap list_fmap total fold_right existsb].
  - induction rows; simpl; auto.
  - fold (total ((fun k => Z.of_nat
                             (length (List.filter
                                        (fun r => String.eqb (Departure.destination r) k)
                                        rows))) <$> ks)).
    rewrite IH, length_filter_either; [lia|].
    intros r _ Hr. apply String.eqb_eq in Hr.
    destruct (existsb _ ks) eqn:E; [|reflexivity].
    apply existsb_exists in E as (k' & Hin & Hk').
    apply String.eqb_eq in Hk'. congruence.
Qed.

Lemma filter_all {A} (f : A -> bool) (l : list A) :
  (forall x, In x l -> f x = true) -> List.filter f l = l.
Proof.
  induction l as [|x l IH]; intros H; [reflexivity|].
  simpl. rewrite (H x (or_introl eq_refl)). f_equal. apply IH.
  intros y Hy. apply H. now right.
Qed.

Lemma in_destinations (r : Departure.row) (rows : list Departure.row) :
  In r rows -> In (Departure.destination r) (Departure.destination <$> rows).
Proof.
  induction rows as [|x l IH]; simpl; [tauto|].
  intros [-> | H]; [now left | right; auto].
Qed.

Lemma sql_count_bounds {A} (l : list (option A)) :
  0 <= sql_count l <= Z.of_nat (length l).
Proof.
  unfold sql_count, non_null.
  induction l as [|[x|] l IH]; cbn in *; lia.
Qed.

(** A destination of the last seven days has its row in the result. *)
Lemma destination_listed (sql_round1 : spec_float -> spec_float) (now : Z)
    (d : db) (r : Departure.row) :
  In r (departures d) -> in_window now r = true ->
  In (Departure.destination r)
     (stat_destination <$> station_analytics_query sql_round1 now d).
Proof.
  intros Hr Hw. unfold station_analytics_query.
  set (rows := List.filter (in_window now) (departures d)).
  set (ks := distinct (Departure.destination <$> rows)).
  eapply Permutation_in.
  - symmetry. apply fmap_Permutation, order_desc_perm.
  - assert (Hdest : stat_destination <$> (destination_stats sql_round1 rows <$> ks)
                    = ks).
    { clear. induction ks as [|k ks IH]; [reflexivity|].
      cbn [fmap list_fmap] in *. now rewrite IH. }
    rewrite Hdest. apply distinct_in, in_destinations.
    apply List.filter_In. now split.
Qed.

End Groups.

(** C8.  The destination analytics groups the departures of the last seven
    days, and only those: every departure whose timestamp is at most seven
    days old has the row of its destination in the result, and that row
    counts the departures to the destination that are at most seven days old
    (a row exactly seven days old is counted); every row of the result is
    such a count, above 0; a row older than seven days has no effect on the
    response.  With a departure of the last seven days the response is the
    status [Data available] with the rows of the result; when every
    departure is older than seven days it is the status [No data available]
    with an empty list; both with HTTP 200. *)
Theorem station_analytics_window (sql_round1 : spec_float -> spec_float)
    (clock : nat -> string) (w : wallclock) (d : db) :
  (forall before old after,
     departures d = (before ++ old :: after)%list ->
     Departure.timestamp old < utc w - 7 * seconds_per_day ->
     get_station_analytics sql_round1 clock w (Ok d)
     = get_station_analytics sql_round1 clock w
         (Ok (with_departures d (before ++ after)%list)))
  /\ (forall stat,
        In stat (station_analytics_query sql_round1 (utc w) d) ->
        stat.1.1.2 = Z.of_nat (length (recent_to stat.1.1.1 (utc w) (departures d)))
        /\ 0 < stat.1.1.2)
  /\ (forall r,
        In r (departures d) ->
        utc w - 7 * seconds_per_day <= Departure.timestamp r ->
        (exists stat,
           In stat (station_analytics_query sql_round1 (utc w) d)
           /\ stat.1.1.1 = Departure.destination r
           /\ stat.1.1.2
              = Z.of_nat (length (recent_to (Departure.destination r) (utc w)
                                    (departures d))))
        /\ get_station_analytics sql_round1 clock w (Ok d)
           = {| body := dict [("status", PStr "Data available");
                              ("timestamp", PStr (clock 0%nat));
                              ("data",
                               PList (analytics_entry
                                        <$> station_analytics_query sql_round1
                                              (utc w) d))];
                code := 200 |})
  /\ (forall r, Departure.timestamp r = utc w - 7 * seconds_per_day ->
                in_window (utc w) r = true)
  /\ (Forall (fun r => Departure.timestamp r < utc w - 7 * seconds_per_day)
        (departures d) ->
      get_station_analytics sql_round1 clock w (Ok d)
      = {| body := dict [("status", PStr "No data available");
                         ("timestamp", PStr (clock 0%nat));
                         ("data", PList [])];
           code := 200 |}).
Proof.
  split; [|split; [|split; [|split]]].
  - intros before old after Hd Hold.
    unfold get_station_analytics, station_analytics_query.
    cbn [departures with_departures]. rewrite Hd, !List.filter_app.
    cbn [List.filter]. now rewrite (old_row_not_in_window _ _ Hold).
  - apply station_analytics_counts.
  - intros r Hr Hrecent.
    assert (Hw : in_window (utc w) r = true)
      by (unfold in_window; now apply Z.leb_le).
    pose proof (destination_listed sql_round1 (utc w) d r Hr Hw) as Hin.
    apply in_fmap in Hin as (stat & Hdest & Hstat).
    split.
    + exists stat. split; [exact Hstat|]. split; [now rewrite Hdest|].
      destruct (station_analytics_counts sql_round1 (utc w) d stat Hstat)
        as [Hcount _].
      rewrite Hcount. unfold stat_destination in Hdest. now rewrite <- Hdest.
    + unfold get_station_analytics.
      destruct (station_analytics_query sql_round1 (utc w) d);
        [destruct Hstat | reflexivity].
  - intros r Hr. unfold in_window. rewrite Hr. apply Z.leb_refl.
  - intros Hall.
    unfold get_station_analytics, station_analytics_query.
    rewrite filter_none; [reflexivity|].
    eapply List.Forall_impl; [|exact Hall].
    intros r Hr. now apply old_row_not_in_window.
Qed.

Lemma station_analytics_window_witness :
  let w := {| utc := 1704067200; utc_offset := 0 |} in
  let row key destination timestamp :=
    {| Departure.id := key; Departure.station_id := "EMBR";
       Departure.destination := destination; Departure.platform := None;
       Departure.minutes := 5; Departure.direction := "South";
       Departure.color := None; Departure.length := None;
       Departure.bike_flag := None; Departure.delay := Some 0;
       Departure.timestamp := timestamp; Departure.date := None;
       Departure.created_at := timestamp |} in
  let old := row 1 "Richmond" (1704067200 - 7 * 86400 - 1) in
  let recent := row 2 "Daly City" (1704067200 - 7 * 86400) in
  let newest := row 3 "Daly City" 1704067100 in
  let store := with_departures empty_db [old; recent; newest] in
  get_station_analytics (fun x => x) (fun _ => "2024-01-01T00:00:00") w (Ok store)
  = get_station_analytics (fun x => x) (fun _ => "2024-01-01T00:00:00") w
      (Ok (with_departures store [recent; newest]))
  /\ (exists stat,
        In stat (station_analytics_query (fun x => x) 1704067200 store)
        /\ stat.1.1.1 = "Daly City" /\ stat.1.1.2 = 2)
  /\ get_station_analytics (fun x => x) (fun _ => "2024-01-01T00:00:00") w
       (Ok (with_departures empty_db [old]))
     = {| body := dict [("status", PStr "No data available");
                        ("timestamp", PStr "2024-01-01T00:00:00");
                        ("data", PList [])];
          code := 200 |}.
Proof.
  intros w row old recent newest store.
  split; [|split].
  - apply (proj1 (station_analytics_window (fun x => x)
                    (fun _ => "2024-01-01T00:00:00") w store)
             [] old [recent; newest]).
    + reflexivity.
    + reflexivity.
  - apply (proj1 (proj1 (proj2 (proj2 (station_analytics_window (fun x => x)
                    (fun _ => "2024-01-01T00:00:00") w store)))
             recent (or_intror (or_introl eq_refl))
             ltac:(vm_compute; discriminate))).
  - apply (proj2 (proj2 (proj2 (proj2
             (station_analytics_window (fun x => x)
                (fun _ => "2024-01-01T00:00:00") w
                (with_departures empty_db [old])))))).
    repeat constructor.
Defined.

(** ** The error responses *)

(** C9, the claim as stated fails.  When the feed cannot be reached, the
    station-list handler answers HTTP 500 with a body that holds the error
    message alone: it has no status field and no empty list of data, so it
    is not the error envelope. *)
Lemma get_stations_error_is_not_envelope :
  get_stations_try (NoResponse "connection refused")
  = Err (Exn RequestException "connection refused")
  /\ ~ error_envelope (get_stations (NoResponse "connection refused")).
Proof.
  split; [reflexivity|].
  intros (_ & d & Hbody & [v Hstatus] & _).
  cbn in Hbody. injection Hbody as <-.
  vm_compute in Hstatus. discriminate Hstatus.
Qed.

(** C9, amended.  In every handler an exception of the [try] (a transport
    error, a malformed payload, an error of the store) gives a response
    with HTTP 500 whose body holds the message of the exception under
    [error].  The departures handler and the station-analytics handler add
    the status [Error], a timestamp and an empty list ([departures], resp.
    [data]), which makes the error envelope; the performance handler adds
    the status [error] and no data; the station-list handler adds nothing. *)
Theorem error_responses :
  (forall feed e,
     fetch_json feed = Err e
     \/ (exists data, fetch_json feed = Ok data /\ list_stations data = Err e) ->
     get_stations feed
     = {| body := dict [("error", PStr (str e))]; code := 500 |})
  /\ (forall clock feed station e n,
        (fetch_json (feed station) = Err e /\ n = 0%nat)
        \/ (exists data, fetch_json (feed station) = Ok data
                         /\ collect_departures clock data 0%nat = (Err e, n)) ->
        get_departures clock feed station
        = {| body := dict [("status", PStr "Error");
                           ("timestamp", PStr (clock n));
                           ("error", PStr (str e));
                           ("departures", PList [])];
             code := 500 |}
        /\ error_envelope (get_departures clock feed station))
  /\ (forall sql_round1 clock w e,
        get_station_analytics sql_round1 clock w (Err e)
        = {| body := dict [("status", PStr "Error");
                           ("timestamp", PStr (clock 0%nat));
                           ("error", PStr (str e));
                           ("data", PList [])];
             code := 500 |}
        /\ error_envelope (get_station_analytics sql_round1 clock w (Err e)))
  /\ (forall w store station e,
        get_performance_data_try w store station = Err e ->
        get_performance_data w store station
        = {| body := dict [("status", PStr "error"); ("error", PStr (str e))];
             code := 500 |}).
Proof.
  split; [|split; [|split]].
  - intros feed e H. unfold get_stations, get_stations_try.
    destruct H as [-> | (data & -> & H)]; [reflexivity|].
    cbn [rbind]. now rewrite H.
  - intros clock feed station e n H.
    assert (Hr : get_departures clock feed station
                 = {| body := departures_error (clock n) e; code := 500 |}).
    { unfold get_departures, get_departures_try, bind, lift.
      destruct H as [[-> ->] | (data & -> & H)]; [reflexivity|].
      now rewrite H. }
    rewrite Hr. split; [reflexivity|].
    split; [reflexivity|].
    eexists. split; [reflexivity|].
    split; [eexists; reflexivity|].
    split; [eexists; reflexivity|]. right. reflexivity.
  - intros sql_round1 clock w e. split; [reflexivity|].
    split; [reflexivity|].
    eexists. split; [reflexivity|].
    split; [eexists; reflexivity|].
    split; [eexists; reflexivity|]. left. reflexivity.
  - intros w store station e H. unfold get_performance_data. now rewrite H.
Qed.

Lemma error_responses_witness :
  get_stations (Response 503 "503 Server Error" (Ok PNone))
  = {| body := dict [("error", PStr "503 Server Error")]; code := 500 |}
  /\ error_envelope
       (get_departures (fun _ => "2024-01-01T00:00:00")
          (fun _ => Response 200 "" (Ok PNone)) "EMBR")
  /\ code (get_performance_data {| utc := 0; utc_offset := 0 |}
             (Err (Exn OperationalError "unable to open database file")) "EMBR")
     = 500.
Proof.
  split; [|split].
  - apply (proj1 error_responses
             (Response 503 "503 Server Error" (Ok PNone))
             (Exn RequestException "503 Server Error")).
    left. reflexivity.
  - apply (proj1 (proj2 error_responses) (fun _ => "2024-01-01T00:00:00")
             (fun _ => Response 200 "" (Ok PNone)) "EMBR"
             (Exn TypeError "argument of type 'NoneType' is not iterable")
             0%nat).
    right. exists PNone. split; reflexivity.
  - rewrite (proj2 (proj2 (proj2 error_responses))
               {| utc := 0; utc_offset := 0 |}
               (Err (Exn OperationalError "unable to open database file"))
               "EMBR" (Exn OperationalError "unable to open database file")
               eq_refl).
    reflexivity.
Defined.

(** ** Further properties of the adapter *)

Section Loops.

Lemma for_each_app {A S} (body : A -> S -> M S) (l1 l2 : list A) :
  forall (acc : S) (n : nat),
  for_each (l1 ++ l2)%list body acc n
  = match for_each l1 body acc n with
    | (Ok acc', n') => for_each l2 body acc' n'
    | (Err e, n') => (Err e, n')
    end.
Proof.
  induction l1 as [|x l1 IH]; intros acc n; [reflexivity|].
  cbn [for_each app]. unfold bind.
  destruct (body x acc n) as [[acc'|e] n']; [apply IH | reflexivity].
Qed.

Lemma departure_of_reads (clock : nat -> string) (destination estimate : pyval)
    (n : nat) :
  departure_of clock destination estimate n
  = match estimate_fields estimate with
    | Ok f => (Ok (departure_record (clock n) destination f), S n)
    | Err e => (Err e, S n)
    end.
Proof.
  unfold departure_of, estimate_fields, bind, now, lift, ret.
  destruct (minutes_field estimate); [|reflexivity]. cbn [rbind].
  destruct (py_getitem estimate "platform"); [|reflexivity]. cbn [rbind].
  destruct (py_getitem estimate "direction"); [|reflexivity]. cbn [rbind].
  destruct (l <~ py_getitem estimate "length"; py_int l); reflexivity.
Qed.

Lemma stamped_app (clock : nat -> string)
    (l1 l2 : list (pyval * (Z * pyval * pyval * Z))) : forall n : nat,
  stamped clock n (l1 ++ l2)%list
  = (stamped clock n l1 ++ stamped clock (n + length l1) l2)%list.
Proof.
  induction l1 as [|x l1 IH]; intros n; cbn [stamped app length].
  - now rewrite Nat.add_0_r.
  - rewrite IH. do 3 f_equal. lia.
Qed.

(** The inner loop on estimates that all read well. *)
Lemma estimates_loop (clock : nat -> string) (destination : pyval)
    (efs : list (pyval * (Z * pyval * pyval * Z))) :
  forall (acc : list pyval) (n : nat),
  Forall (fun ef => estimate_fields ef.1 = Ok ef.2) efs ->
  for_each (efs.*1)
    (fun estimate departures =>
       departure <- departure_of clock destination estimate ;
       ret (departures ++ [departure])%list) acc n
  = (Ok (acc ++ stamped clock n ((fun ef => (destination, ef.2)) <$> efs))%list,
     (n + length efs)%nat).
Proof.
  induction efs as [|[est f] efs IH]; intros acc n H.
  - cbn. now rewrite app_nil_r, Nat.add_0_r.
  - inversion H as [|? ? Hf Hrest]; subst. cbn [fst snd] in Hf.
    cbn [fmap list_fmap for_each fst snd]. unfold bind at 1 2.
    rewrite departure_of_reads, Hf. unfold ret at 1.
    rewrite (IH _ _ Hrest). cbn [stamped length fst snd].
    rewrite <- app_assoc. cbn [app]. f_equal. lia.
Qed.

(** The inner loop stops at the first estimate that does not read. *)
Lemma estimates_loop_fails (clock : nat -> string) (destination : pyval)
    (efs : list (pyval * (Z * pyval * pyval * Z))) (bad : pyval)
    (later : list pyval) (e : exn) (acc : list pyval) (n : nat) :
  Forall (fun ef => estimate_fields ef.1 = Ok ef.2) efs ->
  estimate_fields bad = Err e ->
  for_each (efs.*1 ++ bad :: later)%list
    (fun estimate departures =>
       departure <- departure_of clock destination estimate ;
       ret (departures ++ [departure])%list) acc n
  = (Err e, S (n + length efs)).
Proof.
  intros Hgood Hbad. rewrite for_each_app, (estimates_loop _ _ _ _ _ Hgood).
  cbn [for_each]. unfold bind at 1 2. now rewrite departure_of_reads, Hbad.
Qed.

(** The outer loop on groups that all read well. *)
Lemma groups_loop (clock : nat -> string) (etds : list pyval)
    (groups : list (pyval * list (pyval * (Z * pyval * pyval * Z)))) :
  Forall2 reads_as etds groups ->
  forall (acc : list pyval) (n : nat),
  for_each etds
    (fun etd departures =>
       destination <- lift (py_getitem etd "destination") ;
       estimates <- lift (e <~ py_getitem etd "estimate" ; py_iter e) ;
       for_each estimates
         (fun estimate departures =>
            departure <- departure_of clock destination estimate ;
            ret (departures ++ [departure])%list) departures) acc n
  = (Ok (acc ++ stamped clock n (flatten groups))%list,
     (n + length (flatten groups))%nat).
Proof.
  induction 1 as [|etd g etds groups [Hg Hefs] _ IH]; intros acc n.
  - cbn. now rewrite app_nil_r, Nat.add_0_r.
  - cbn [for_each]. unfold bind at 1.
    unfold group_of in Hg.
    unfold bind at 1, lift at 1.
    destruct (py_getitem etd "destination") as [dest|]; [|discriminate].
    cbn [rbind] in Hg. unfold bind at 1, lift at 1.
    destruct (e <~ py_getitem etd "estimate"; py_iter e) as [ests|];
      [|discriminate].
    cbn [rbind] in Hg. injection Hg as -> ->.
    rewrite (estimates_loop _ _ _ _ _ Hefs), IH.
    unfold flatten. cbn [flat_map]. fold (flatten groups).
    rewrite stamped_app, !length_app, !length_fmap, <- app_assoc.
    f_equal. lia.
Qed.

(** With a first station block that holds the groups [etds], the handler
    runs its loops on them. *)
Lemma collect_carried (clock : nat -> string) (data : pyval) (etds : list pyval)
    (n : nat) :
  carries data etds ->
  collect_departures clock data n
  = for_each etds
      (fun etd departures =>
         destination <- lift (py_getitem etd "destination") ;
         estimates <- lift (e <~ py_getitem etd "estimate" ; py_iter e) ;
         for_each estimates
           (fun estimate departures =>
              departure <- departure_of clock destination estimate ;
              ret (departures ++ [departure])%list) departures) [] n.
Proof.
  intros (d & r & block & rest & -> & Hroot & Hst & Hetd).
  assert (H1 : py_contains "root" (PDict d) = Ok true)
    by (cbn; now rewrite Hroot).
  assert (H2 : py_getitem (PDict d) "root" = Ok (PDict r))
    by (cbn; now rewrite Hroot).
  assert (H3 : py_contains "station" (PDict r) = Ok true)
    by (cbn; now rewrite Hst).
  assert (H4 : py_getitem (PDict r) "station" = Ok (PList (PDict block :: rest)))
    by (cbn; now rewrite Hst).
  assert (H5 : py_contains "etd" (PDict block) = Ok true)
    by (cbn; now rewrite Hetd).
  assert (H6 : py_getitem (PDict block) "etd" = Ok (PList etds))
    by (cbn; now rewrite Hetd).
  unfold collect_departures.
  rewrite H1. unfold bind at 1, lift at 1.
  rewrite H2. cbn [rbind]. rewrite H3. unfold bind at 1, lift at 1.
  rewrite H4. cbn [rbind py_getitem0]. unfold bind at 1, lift at 1.
  rewrite H5. unfold bind at 1, lift at 1.
  rewrite H6. cbn [rbind py_iter]. unfold bind at 1, lift at 1.
  reflexivity.
Qed.

End Loops.

(** X1.  When the first station block of the payload holds destination
    groups that all read well, the departures handler answers HTTP 200 with
    one record per estimate, in the order of the feed (group by group), each
    with the destination of its group; the k-th record carries the k-th
    reading of the clock and the response the reading after the last. *)
Theorem departures_in_feed_order (clock : nat -> string)
    (feed : string -> upstream) (station : string) (data : pyval)
    (etds : list pyval)
    (groups : list (pyval * list (pyval * (Z * pyval * pyval * Z)))) :
  answers (feed station) data ->
  carries data etds ->
  Forall2 reads_as etds groups ->
  get_departures clock feed station
  = {| body := dict [("status", PStr "Data available");
                     ("timestamp", PStr (clock (length (flatten groups))));
                     ("departures", PList (stamped clock 0 (flatten groups)))];
       code := 200 |}.
Proof.
  intros (status_code & http_error & Hfeed & Hstatus) Hdata Hgroups.
  unfold get_departures, get_departures_try, bind at 1, lift at 1, fetch_json.
  rewrite Hfeed, Hstatus. unfold bind at 1.
  rewrite (collect_carried clock data etds 0 Hdata).
  rewrite (groups_loop clock etds groups Hgroups). reflexivity.
Qed.

Lemma departures_in_feed_order_witness :
  let clock := fun n : nat => if Nat.eqb n 0 then "t0" else if Nat.eqb n 1 then "t1" else "t2" in
  let est minutes :=
    dict [("minutes", PStr minutes); ("platform", PStr "2");
          ("direction", PStr "South"); ("length", PStr "10")] in
  let payload :=
    dict [("root", dict [("station",
            PList [dict [("etd",
              PList [dict [("destination", PStr "Daly City");
                           ("estimate", PList [est "Leaving"; est "7"])]])]])])] in
  get_departures clock (fun _ => Response 200 "" (Ok payload)) "EMBR"
  = {| body := dict [("status", PStr "Data available");
                     ("timestamp", PStr "t2");
                     ("departures",
                      PList [departure_record "t0" (PStr "Daly City")
                               (0, PStr "2", PStr "South", 10);
                             departure_record "t1" (PStr "Daly City")
                               (7, PStr "2", PStr "South", 10)])];
       code := 200 |}.
Proof.
  intros clock est payload.
  apply (departures_in_feed_order clock
           (fun _ => Response 200 "" (Ok payload)) "EMBR" payload
           [dict [("destination", PStr "Daly City");
                  ("estimate", PList [est "Leaving"; est "7"])]]
           [(PStr "Daly City",
             [(est "Leaving", (0, PStr "2", PStr "South", 10));
              (est "7", (7, PStr "2", PStr "South", 10))])]).
  - exists 200, "". split; reflexivity.
  - do 3 eexists. exists []. repeat split; reflexivity.
  - repeat constructor.
Defined.

(** X2.  One estimate that does not read (minutes that are no integer, a
    missing platform, ...) fails the whole request: the records built from
    the estimates before it are dropped, and the handler answers HTTP 500
    with the message of the exception, no departures, and the reading of the
    clock that follows the one taken for the failing estimate. *)
Theorem bad_estimate_fails_request (clock : nat -> string)
    (feed : string -> upstream) (station : string) (data : pyval)
    (etds later_etds : list pyval) (bad_etd destination bad : pyval)
    (groups : list (pyval * list (pyval * (Z * pyval * pyval * Z))))
    (efs : list (pyval * (Z * pyval * pyval * Z))) (later : list pyval)
    (e : exn) :
  answers (feed station) data ->
  carries data (etds ++ bad_etd :: later_etds)%list ->
  Forall2 reads_as etds groups ->
  group_of bad_etd = Ok (destination, (efs.*1 ++ bad :: later)%list) ->
  Forall (fun ef => estimate_fields ef.1 = Ok ef.2) efs ->
  estimate_fields bad = Err e ->
  get_departures clock feed station
  = {| body := dict [("status", PStr "Error");
                     ("timestamp",
                      PStr (clock (S (length (flatten groups) + length efs))));
                     ("error", PStr (str e));
                     ("departures", PList [])];
       code := 500 |}.
Proof.
  intros (status_code & http_error & Hfeed & Hstatus) Hdata Hgroups Hg Hefs Hbad.
  unfold get_departures, get_departures_try, bind at 1, lift at 1, fetch_json.
  rewrite Hfeed, Hstatus. unfold bind at 1.
  rewrite (collect_carried clock data _ 0 Hdata).
  rewrite for_each_app, (groups_loop clock etds groups Hgroups).
  cbn [for_each]. unfold bind at 1.
  unfold group_of in Hg. unfold bind at 1, lift at 1.
  destruct (py_getitem bad_etd "destination") as [dest|]; [|discriminate].
  cbn [rbind] in Hg. unfold bind at 1, lift at 1.
  destruct (e0 <~ py_getitem bad_etd "estimate"; py_iter e0) as [ests|];
    [|discriminate].
  cbn [rbind] in Hg. injection Hg as -> ->.
  rewrite (estimates_loop_fails _ _ _ _ _ _ _ _ Hefs Hbad). reflexivity.
Qed.

Lemma bad_estimate_fails_request_witness :
  let est minutes :=
    dict [("minutes", PStr minutes); ("platform", PStr "2");
          ("direction", PStr "South"); ("length", PStr "10")] in
  let payload :=
    dict [("root", dict [("station",
            PList [dict [("etd",
              PList [dict [("destination", PStr "Daly City");
                           ("estimate", PList [est "7"; est "soon"])]])]])])] in
  get_departures (fun _ => "t") (fun _ => Response 200 "" (Ok payload)) "EMBR"
  = {| body := dict [("status", PStr "Error");
                     ("timestamp", PStr "t");
                     ("error",
                      PStr "invalid literal for int() with base 10: 'soon'");
                     ("departures", PList [])];
       code := 500 |}.
Proof.
  intros est payload.
  apply (bad_estimate_fails_request (fun _ => "t")
           (fun _ => Response 200 "" (Ok payload)) "EMBR" payload
           [] []
           (dict [("destination", PStr "Daly City");
                  ("estimate", PList [est "7"; est "soon"])])
           (PStr "Daly City") (est "soon") []
           [(est "7", (7, PStr "2", PStr "South", 10))] []
           (invalid_literal "soon")).
  - exists 200, "". split; reflexivity.
  - do 3 eexists. exists []. repeat split; reflexivity.
  - constructor.
  - reflexivity.
  - repeat constructor.
  - reflexivity.
Defined.

(** X3.  A [root] that is present but is null, a boolean or a number is not
    treated as missing data: testing it for the [station] key raises, and
    the departures handler answers HTTP 500 with the message of the type
    error. *)
Theorem scalar_root_is_error (clock : nat -> string) (feed : string -> upstream)
    (station : string) (d : gmap string pyval) (v : pyval) :
  answers (feed station) (PDict d) ->
  d !! "root" = Some v ->
  is_scalar v = true ->
  get_departures clock feed station
  = {| body := dict [("status", PStr "Error");
                     ("timestamp", PStr (clock 0%nat));
                     ("error",
                      PStr ("argument of type '" +:+ type_name v
                            +:+ "' is not iterable"));
                     ("departures", PList [])];
       code := 500 |}.
Proof.
  intros (status_code & http_error & Hfeed & Hstatus) Hroot Hv.
  unfold get_departures, get_departures_try, bind at 1, lift at 1, fetch_json.
  rewrite Hfeed, Hstatus. unfold bind at 1.
  unfold collect_departures, bind at 1, lift at 1.
  assert (H1 : py_contains "root" (PDict d) = Ok true)
    by (cbn; now rewrite Hroot).
  assert (H2 : py_getitem (PDict d) "root" = Ok v)
    by (cbn; now rewrite Hroot).
  rewrite H1. unfold bind at 1, lift at 1. rewrite H2. cbn [rbind].
  destruct v; try discriminate Hv; reflexivity.
Qed.

Lemma scalar_root_is_error_witness :
  code (get_departures (fun _ => "t")
          (fun _ => Response 200 "" (Ok (dict [("root", PNone)]))) "EMBR")
  = 500.
Proof.
  rewrite (scalar_root_is_error (fun _ => "t")
             (fun _ => Response 200 "" (Ok (dict [("root", PNone)]))) "EMBR"
             (list_to_map [("root", PNone)]) PNone
             ltac:(exists 200, ""; split; reflexivity) eq_refl eq_refl).
  reflexivity.
Defined.

(** X4.  Only the first station block is read: two payloads whose station
    lists start with the same block get the same response, whatever else
    the lists, the roots and the payloads hold. *)
Theorem only_first_station_block (clock : nat -> string)
    (feed1 feed2 : string -> upstream) (station : string)
    (d1 d2 r1 r2 : gmap string pyval) (block : pyval) (rest1 rest2 : list pyval) :
  answers (feed1 station) (PDict d1) ->
  answers (feed2 station) (PDict d2) ->
  d1 !! "root" = Some (PDict r1) ->
  d2 !! "root" = Some (PDict r2) ->
  r1 !! "station" = Some (PList (block :: rest1)) ->
  r2 !! "station" = Some (PList (block :: rest2)) ->
  get_departures clock feed1 station = get_departures clock feed2 station.
Proof.
  intros Hf1 Hf2 Hr1 Hr2 Hst1 Hst2.
  assert (H : forall feed d r rest,
             answers (feed station) (PDict d) ->
             d !! "root" = Some (PDict r) ->
             r !! "station" = Some (PList (block :: rest)) ->
             get_departures clock feed station
             = get_departures clock
                 (fun _ => Response 200 ""
                    (Ok (dict [("root", dict [("station", PList [block])])])))
                 station).
  { intros feed d r rest (c & e & Hf & Hs) Hr Hst.
    unfold get_departures, get_departures_try, fetch_json.
    rewrite Hf, Hs. cbn [andb Z.leb Z.ltb Z.compare Pos.compare Pos.compare_cont].
    unfold bind at 1 3, lift at 1 2.
    replace (collect_departures clock (PDict d))
      with (collect_departures clock
              (dict [("root", dict [("station", PList [block])])]));
      [reflexivity|].
    unfold collect_departures.
    assert (H1 : py_contains "root" (PDict d) = Ok true)
      by (cbn; now rewrite Hr).
    assert (H2 : py_getitem (PDict d) "root" = Ok (PDict r))
      by (cbn; now rewrite Hr).
    assert (H3 : py_contains "station" (PDict r) = Ok true)
      by (cbn; now rewrite Hst).
    assert (H4 : py_getitem (PDict r) "station" = Ok (PList (block :: rest)))
      by (cbn; now rewrite Hst).
    rewrite H1, H2. cbn [rbind]. rewrite H3, H4. reflexivity. }
  now rewrite (H feed1 d1 r1 rest1 Hf1 Hr1 Hst1), (H feed2 d2 r2 rest2 Hf2 Hr2 Hst2).
Qed.

Lemma only_first_station_block_witness :
  let block := dict [("name", PStr "Embarcadero")] in
  let payload blocks := dict [("root", dict [("station", PList blocks)])] in
  get_departures (fun _ => "t")
    (fun _ => Response 200 "" (Ok (payload [block; PNone]))) "EMBR"
  = get_departures (fun _ => "t")
      (fun _ => Response 200 "" (Ok (payload [block]))) "EMBR".
Proof.
  intros block payload.
  apply (only_first_station_block (fun _ => "t")
           (fun _ => Response 200 "" (Ok (payload [block; PNone])))
           (fun _ => Response 200 "" (Ok (payload [block]))) "EMBR"
           (list_to_map [("root", dict [("station", PList [block; PNone])])])
           (list_to_map [("root", dict [("station", PList [block])])])
           (list_to_map [("station", PList [block; PNone])])
           (list_to_map [("station", PList [block])])
           block [PNone] []).
  - exists 200, "". split; reflexivity.
  - exists 200, "". split; reflexivity.
  - reflexivity.
  - reflexivity.
  - reflexivity.
  - reflexivity.
Defined.

Section StationList.

(** The loop of [get_stations] on entries that all have a name and an
    abbreviation. *)
Lemma list_stations_entries (data : pyval) (l entries : list pyval) :
  lists_stations data l ->
  Forall2 (fun st e => exists m : gmap string pyval,
                         st = PDict m /\ station_entry m = Some e) l entries ->
  list_stations data = Ok entries.
Proof.
  intros (d & r & c & -> & Hroot & Hsts & Hst) Hl.
  unfold list_stations, py_getitem.
  rewrite Hroot. cbn [rbind]. rewrite Hsts. cbn [rbind]. rewrite Hst.
  cbn [rbind py_iter].
  clear Hst. match goal with |- ?f l [] = _ => set (loop := f) end.
  enough (H : forall acc, loop l acc = Ok (acc ++ entries)%list) by apply (H []).
  induction Hl as [|st e l entries (m & -> & He) _ IH]; intros acc.
  - cbn. now rewrite app_nil_r.
  - unfold station_entry in He. subst loop. cbn [rbind].
    destruct (m !! "name") as [name|]; [|discriminate].
    destruct (m !! "abbr") as [abbr|]; [|discriminate].
    injection He as <-. cbn [rbind]. rewrite IH, <- app_assoc. reflexivity.
Qed.

(** The loop stops at the first entry that lacks one of the two keys. *)
Lemma list_stations_bad_entry (data : pyval) (l entries later : list pyval)
    (bad : gmap string pyval) :
  lists_stations data (l ++ PDict bad :: later)%list ->
  Forall2 (fun st e => exists m : gmap string pyval,
                         st = PDict m /\ station_entry m = Some e) l entries ->
  station_entry bad = None ->
  list_stations data
  = Err (Exn KeyError ("'" +:+ missing_station_key bad +:+ "'")).
Proof.
  intros (d & r & c & -> & Hroot & Hsts & Hst) Hl Hbad.
  unfold list_stations, py_getitem.
  rewrite Hroot. cbn [rbind]. rewrite Hsts. cbn [rbind]. rewrite Hst.
  cbn [rbind py_iter].
  clear Hst. match goal with |- ?f _ [] = _ => set (loop := f) end.
  generalize (@nil pyval).
  induction Hl as [|st e l entries (m & -> & He) _ IH]; intros acc.
  - unfold station_entry in Hbad. unfold missing_station_key.
    subst loop. cbn [app rbind].
    destruct (bad !! "name") as [name|]; [|reflexivity].
    destruct (bad !! "abbr") as [abbr|]; [discriminate | reflexivity].
  - unfold station_entry in He. subst loop. cbn [app rbind].
    destruct (m !! "name") as [name|]; [|discriminate].
    destruct (m !! "abbr") as [abbr|]; [|discriminate].
    cbn [rbind]. apply IH.
Qed.

End StationList.

(** X5.  When the feed answers with a station list whose entries all have a
    name and an abbreviation, the station-list handler answers HTTP 200 with
    one object per entry, in the order of the feed, holding exactly the name
    and the abbreviation of the entry. *)
Theorem get_stations_lists (feed : upstream) (data : pyval)
    (l entries : list pyval) :
  answers feed data ->
  lists_stations data l ->
  Forall2 (fun st e => exists m : gmap string pyval,
                         st = PDict m /\ station_entry m = Some e) l entries ->
  get_stations feed = {| body := PList entries; code := 200 |}.
Proof.
  intros (status_code & http_error & -> & Hstatus) Hdata Hl.
  unfold get_stations, get_stations_try, fetch_json. rewrite Hstatus.
  cbn [rbind]. now rewrite (list_stations_entries data l entries Hdata Hl).
Qed.

Lemma get_stations_lists_witness :
  get_stations
    (Response 200 ""
       (Ok (dict [("root", dict [("stations", dict [("station",
              PList [dict [("name", PStr "Embarcadero"); ("abbr", PStr "EMBR");
                           ("city", PStr "San Francisco")]])])])])))
  = {| body := PList [dict [("name", PStr "Embarcadero"); ("abbr", PStr "EMBR")]];
       code := 200 |}.
Proof.
  eapply get_stations_lists.
  - exists 200, "". split; reflexivity.
  - do 3 eexists. repeat split; reflexivity.
  - repeat constructor. eexists. split; reflexivity.
Defined.

(** X6.  The station-list handler does not tolerate missing keys: a payload
    without [root], or one entry of the list without a name or an
    abbreviation, makes it answer HTTP 500 with the quoted name of the
    missing key as the error, and none of the stations read before. *)
Theorem get_stations_missing_key (feed : upstream) (data : pyval) :
  answers feed data ->
  ((exists d : gmap string pyval, data = PDict d /\ d !! "root" = None) ->
   get_stations feed = {| body := dict [("error", PStr "'root'")]; code := 500 |})
  /\ (forall (l entries later : list pyval) (bad : gmap string pyval),
        lists_stations data (l ++ PDict bad :: later)%list ->
        Forall2 (fun st e => exists m : gmap string pyval,
                               st = PDict m /\ station_entry m = Some e)
          l entries ->
        station_entry bad = None ->
        get_stations feed
        = {| body := dict [("error",
                            PStr ("'" +:+ missing_station_key bad +:+ "'"))];
             code := 500 |}).
Proof.
  intros (status_code & http_error & -> & Hstatus).
  unfold get_stations, get_stations_try, fetch_json. rewrite Hstatus.
  cbn [rbind]. split.
  - intros (d & -> & Hroot). unfold list_stations, py_getitem.
    now rewrite Hroot.
  - intros l entries later bad Hdata Hl Hbad.
    now rewrite (list_stations_bad_entry data l entries later bad Hdata Hl Hbad).
Qed.

Lemma get_stations_missing_key_witness :
  get_stations (Response 200 "" (Ok (dict [])))
  = {| body := dict [("error", PStr "'root'")]; code := 500 |}
  /\ get_stations
       (Response 200 ""
          (Ok (dict [("root", dict [("stations", dict [("station",
                 PList [dict [("name", PStr "Embarcadero"); ("abbr", PStr "EMBR")];
                        dict [("name", PStr "Fremont")]])])])])))
     = {| body := dict [("error", PStr "'abbr'")]; code := 500 |}.
Proof.
  split.
  - apply (proj1 (get_stations_missing_key (Response 200 "" (Ok (dict [])))
                    (dict []) ltac:(exists 200, ""; split; reflexivity))).
    eexists. split; reflexivity.
  - pose (first := dict [("name", PStr "Embarcadero"); ("abbr", PStr "EMBR")]).
    pose (data := dict [("root", dict [("stations", dict [("station",
                    PList [first; dict [("name", PStr "Fremont")]])])])]).
    refine (proj2 (get_stations_missing_key (Response 200 "" (Ok data)) data
                     ltac:(exists 200, ""; split; reflexivity))
              [first] [first] [] (list_to_map [("name", PStr "Fremont")])
              _ _ eq_refl).
    + do 3 eexists. repeat split; reflexivity.
    + repeat constructor. eexists. split; reflexivity.
Defined.

(** ** Further properties of the store *)

Section Upserts.

Lemma filter_idem {A} (f : A -> bool) (l : list A) :
  List.filter f (List.filter f l) = List.filter f l.
Proof.
  induction l as [|x l IH]; [reflexivity|].
  simpl. destruct (f x) eqn:E; simpl; [rewrite E; now f_equal | exact IH].
Qed.

Lemma in_ids_filter {A B} (key : A -> B) (f : A -> bool) (l : list A) (k : B) :
  In k (key <$> List.filter f l) -> In k (key <$> l).
Proof.
  induction l as [|x l IH]; simpl; [tauto|].
  destruct (f x); simpl; [intros [H | H]; [now left | right; auto] | right; auto].
Qed.

Lemma NoDup_ids_filter {A B} (key : A -> B) (f : A -> bool) (l : list A) :
  List.NoDup (key <$> l) -> List.NoDup (key <$> List.filter f l).
Proof.
  induction l as [|x l IH]; simpl; [trivial|].
  intros H. apply List.NoDup_cons_iff in H as [Hx Hl].
  destruct (f x); simpl; [|auto].
  apply List.NoDup_cons_iff. split; [|auto].
  intros Hin. apply Hx. eapply in_ids_filter. exact Hin.
Qed.

Lemma not_in_filtered_out (k : string) (t : list Station.row) :
  ~ In k (Station.id <$> List.filter
                           (fun x => negb (String.eqb (Station.id x) k)) t).
Proof.
  induction t as [|x t IH]; simpl; [tauto|].
  destruct (String.eqb (Station.id x) k) eqn:E; simpl; [exact IH|].
  intros [H | H]; [|auto]. apply String.eqb_neq in E. auto.
Qed.

Lemma NoDup_snoc {B} (l : list B) (k : B) :
  List.NoDup l -> ~ In k l -> List.NoDup (l ++ [k]).
Proof.
  induction l as [|x l IH]; simpl; intros Hl Hk.
  - constructor; [tauto | constructor].
  - apply List.NoDup_cons_iff in Hl as [Hx Hl].
    apply List.NoDup_cons_iff. split.
    + rewrite List.in_app_iff. simpl. intros [H | [H | []]]; [auto|].
      subst. tauto.
    + apply IH; tauto.
Qed.

Lemma station_rows_other (id : string) (r : Station.row) (t : list Station.row) :
  id <> Station.id r ->
  station_rows id (replace_station r t) = station_rows id t.
Proof.
  intros Hne. unfold station_rows, replace_station.
  rewrite List.filter_app. cbn [List.filter].
  assert (E : String.eqb (Station.id r) id = false)
    by (apply String.eqb_neq; congruence).
  rewrite E, app_nil_r.
  induction t as [|x t IH]; [reflexivity|].
  simpl. destruct (String.eqb (Station.id x) (Station.id r)) eqn:Ex; simpl.
  - apply String.eqb_eq in Ex. rewrite Ex, E. exact IH.
  - destruct (String.eqb (Station.id x) id); now rewrite IH.
Qed.

End Upserts.

(** X7.  Of two upserts of the same station identifier the first leaves no
    trace: the store after both is the store after the second alone. *)
Theorem save_station_overwrites (w1 w2 : wallclock) (s1 s2 : station_data)
    (d : db) :
  sd_id s1 = sd_id s2 ->
  save_station w2 s2 (save_station w1 s1 d) = save_station w2 s2 d.
Proof.
  intros Hid. unfold save_station. cbn [stations departures daily_stats
    seq_departures seq_daily_stats]. f_equal.
  unfold replace_station. cbn [Station.id station_row]. rewrite Hid.
  rewrite List.filter_app, filter_idem.
  cbn [List.filter Station.id station_row].
  now rewrite Hid, String.eqb_refl, app_nil_r.
Qed.

Lemma save_station_overwrites_witness :
  let embr name :=
    {| sd_id := "EMBR"; sd_name := name; sd_abbr := "EMBR"; sd_city := None;
       sd_county := None; sd_state := None; sd_zipcode := None |} in
  let w t := {| utc := t; utc_offset := 0 |} in
  save_station (w 20) (embr "Embarcadero") (save_station (w 10) (embr "Emb") empty_db)
  = save_station (w 20) (embr "Embarcadero") empty_db.
Proof.
  intros embr w.
  apply (save_station_overwrites (w 10) (w 20) (embr "Emb") (embr "Embarcadero")
           empty_db).
  reflexivity.
Defined.

(** X8.  An upsert keeps the identifiers of [stations] pairwise distinct,
    leaves exactly one row for the identifier it writes, and leaves the rows
    of every other identifier as they were. *)
Theorem save_station_keeps_ids_distinct (w : wallclock) (s : station_data)
    (d : db) :
  station_ids_ok d ->
  station_ids_ok (save_station w s d)
  /\ station_rows (sd_id s) (stations (save_station w s d)) = [station_row w s]
  /\ forall id, id <> sd_id s ->
       station_rows id (stations (save_station w s d))
       = station_rows id (stations d).
Proof.
  intros Hok. unfold station_ids_ok, save_station in *. cbn [stations].
  split; [|split].
  - unfold replace_station. rewrite fmap_app. cbn [fmap list_fmap].
    apply NoDup_snoc.
    + now apply NoDup_ids_filter.
    + apply not_in_filtered_out.
  - unfold station_rows, replace_station. cbn [Station.id station_row].
    rewrite List.filter_app, filter_out_then_in. cbn [List.filter Station.id].
    now rewrite String.eqb_refl.
  - intros id Hne. now apply station_rows_other.
Qed.

Lemma save_station_keeps_ids_distinct_witness :
  station_ids_ok
    (save_station {| utc := 0; utc_offset := 0 |}
       {| sd_id := "EMBR"; sd_name := "Embarcadero"; sd_abbr := "EMBR";
          sd_city := None; sd_county := None; sd_state := None;
          sd_zipcode := None |} empty_db).
Proof.
  apply save_station_keeps_ids_distinct. constructor.
Defined.

(** X9.  Saving a departure only appends: the rows held before stay as they
    are and in place, the new row comes last with a key above every key the
    table holds and above the last key given out, the other two tables do
    not change, and the keys of [departures] stay pairwise distinct.  The
    new row has the delay 0 when the record gives none. *)
Theorem save_departure_appends (w : wallclock) (p : departure_data) (d : db) :
  let d' := save_departure w p d in
  exists r : Departure.row,
    departures d' = (departures d ++ [r])%list
    /\ Forall (fun x => Departure.id x < Departure.id r) (departures d)
    /\ seq_departures d < Departure.id r
    /\ seq_departures d' = Departure.id r
    /\ Departure.delay r = Some (default 0 (dd_delay p))
    /\ stations d' = stations d
    /\ daily_stats d' = daily_stats d
    /\ (departure_keys_ok d -> departure_keys_ok d').
Proof.
  cbn zeta. eexists. split; [reflexivity|].
  cbn [departure_row Departure.id Departure.delay save_departure seq_departures
       stations daily_stats].
  assert (Hlt : Forall (fun x => Departure.id x
                          < next_id (Departure.id <$> departures d) (seq_departures d))
                  (departures d)).
  { apply List.Forall_forall. intros x Hx.
    assert (Hin : In (Departure.id x) (Departure.id <$> departures d)).
    { clear -Hx. induction (departures d) as [|y l IH]; simpl in *; [tauto|].
      destruct Hx as [-> | Hx]; [now left | right; auto]. }
    apply max_id_bound in Hin. unfold next_id. lia. }
  repeat split; try reflexivity; try exact Hlt.
  - unfold next_id. lia.
  - unfold departure_keys_ok, save_departure. cbn [departures]. intros Hok.
    rewrite fmap_app. cbn [fmap list_fmap departure_row Departure.id].
    apply NoDup_snoc; [exact Hok|].
    intros Hin. apply max_id_bound in Hin. unfold next_id in Hin. lia.
Qed.

Lemma save_departure_appends_witness :
  departure_keys_ok
    (save_departure {| utc := 0; utc_offset := 0 |}
       {| dd_station_id := "EMBR"; dd_destination := "Daly City";
          dd_platform := None; dd_minutes := 5; dd_direction := "South";
          dd_color := None; dd_length := None; dd_bike_flag := None;
          dd_delay := None |} empty_db).
Proof.
  destruct (save_departure_appends {| utc := 0; utc_offset := 0 |}
              {| dd_station_id := "EMBR"; dd_destination := "Daly City";
                 dd_platform := None; dd_minutes := 5; dd_direction := "South";
                 dd_color := None; dd_length := None; dd_bike_flag := None;
                 dd_delay := None |} empty_db)
    as (r & _ & _ & _ & _ & _ & _ & _ & Hok).
  apply Hok. constructor.
Defined.

Section Recompute.

(** The aggregates of [update_daily_stats] over any rows: a NULL delay
    counts like a delay that is not above 0. *)

Lemma flags_with_null (delay : list (option Z)) :
  default 0 (sql_sum ((fun v => sql_when (sql_gt v 0) (Some 1) (Some 0)) <$> delay))
  = Z.of_nat (length (delayed (non_null delay))).
Proof.
  unfold sql_sum.
  transitivity (total (non_null ((fun v => sql_when (sql_gt v 0) (Some 1) (Some 0))
                                   <$> delay))).
  { destruct (non_null _); reflexivity. }
  unfold total, non_null, delayed.
  induction delay as [|[x|] l IH]; [reflexivity| |]; cbn in *.
  - destruct (0 <? x); cbn in *; lia.
  - lia.
Qed.

Lemma non_null_delayed_with_null (delay : list (option Z)) :
  non_null ((fun v => sql_when (sql_gt v 0) v None) <$> delay)
  = delayed (non_null delay).
Proof.
  unfold non_null, delayed.
  induction delay as [|[x|] l IH]; [reflexivity| |]; cbn in *.
  - destruct (0 <? x); cbn in *; now rewrite IH.
  - exact IH.
Qed.

Lemma max_with_null (delay : list (option Z)) :
  default 0 (sql_max ((fun v => sql_when (sql_gt v 0) v (Some 0)) <$> delay))
  = max_id (delayed (non_null delay)).
Proof.
  unfold sql_max.
  set (clip := fun o : option Z =>
                 match o with Some x => if 0 <? x then x else 0 | None => 0 end).
  assert (H : non_null ((fun v => sql_when (sql_gt v 0) v (Some 0)) <$> delay)
              = clip <$> delay).
  { unfold non_null.
    induction delay as [|[x|] l IH]; [reflexivity| |]; cbn in *.
    - destruct (0 <? x); cbn in *; now rewrite IH.
    - now rewrite IH. }
  rewrite H. clear H.
  assert (H : max_id (clip <$> delay) = max_id (delayed (non_null delay))).
  { unfold delayed, non_null.
    induction delay as [|[x|] l IH]; [reflexivity| |].
    - cbn [fmap list_fmap omap list_omap clip List.filter].
      destruct (0 <? x) eqn:E.
      + change (Z.max x (max_id (clip <$> l))
                = Z.max x (max_id (List.filter (fun x => 0 <? x)
                                     (omap (fun o => o) l)))).
        now rewrite IH.
      + change (Z.max 0 (max_id (clip <$> l))
                = max_id (List.filter (fun x => 0 <? x) (omap (fun o => o) l))).
        rewrite IH.
        pose proof (max_id_nonneg (List.filter (fun x => 0 <? x)
                                     (omap (fun o => o) l))). lia.
    - change (Z.max 0 (max_id (clip <$> l))
              = max_id (List.filter (fun x => 0 <? x) (omap (fun o => o) l))).
      rewrite IH.
      pose proof (max_id_nonneg (List.filter (fun x => 0 <? x)
                                   (omap (fun o => o) l))). lia. }
  rewrite <- H.
  destruct delay as [|o l]; [reflexivity|].
  cbn [fmap list_fmap default max_id fold_right].
  rewrite max_from; [reflexivity|].
  destruct o as [x|]; cbn; [destruct (0 <? x) eqn:E; [apply Z.ltb_lt in E|]|]; lia.
Qed.

Lemma delayed_at_most (delay : list (option Z)) :
  (length (delayed (non_null delay)) <= length delay)%nat.
Proof.
  unfold delayed, non_null.
  induction delay as [|[x|] l IH]; cbn in *; [lia| |lia].
  destruct (0 <? x); cbn; lia.
Qed.

(** The row a recomputation adds, from the rows of the station and day. *)
Lemma recomputed_row (w : wallclock) (station : string) (date : Z) (d : db) :
  exists r : DailyStat.row,
    last (daily_stats (update_daily_stats w station date d)) = Some r
    /\ DailyStat.station_id r = station
    /\ DailyStat.date r = date
    /\ DailyStat.total_departures r
       = Z.of_nat (length (List.filter (on_day station date) (departures d)))
    /\ DailyStat.delayed_departures r
       = Z.of_nat (length (positive_delays
                             (List.filter (on_day station date) (departures d))))
    /\ DailyStat.avg_delay_minutes r
       = average (positive_delays
                    (List.filter (on_day station date) (departures d)))
    /\ DailyStat.max_delay_minutes r
       = max_id (positive_delays
                   (List.filter (on_day station date) (departures d))).
Proof.
  eexists. rewrite daily_stats_update, last_snoc.
  split; [reflexivity|].
  unfold day_totals, positive_delays.
  cbn [daily_stat_row DailyStat.station_id DailyStat.date
       DailyStat.total_departures DailyStat.delayed_departures
       DailyStat.avg_delay_minutes DailyStat.max_delay_minutes].
  rewrite flags_with_null, max_with_null, length_fmap.
  unfold sql_avg. rewrite non_null_delayed_with_null, stored_average.
  repeat split; reflexivity.
Qed.

End Recompute.

(** X10.  Whatever the store holds, a recomputation adds the row of its
    station and date with: the number of departures of the station created
    on that day as total; the number of those with a delay above 0 as
    delayed count (a NULL delay is not above 0), which is at most the total;
    and the average (the binary64 quotient of their sum by their number) and
    the maximum of the delays above 0, both 0 when there is none. *)
Theorem update_daily_stats_row (w : wallclock) (station : string) (date : Z)
    (d : db) :
  exists r : DailyStat.row,
    last (daily_stats (update_daily_stats w station date d)) = Some r
    /\ DailyStat.station_id r = station
    /\ DailyStat.date r = date
    /\ DailyStat.total_departures r
       = Z.of_nat (length (List.filter (on_day station date) (departures d)))
    /\ DailyStat.delayed_departures r
       = Z.of_nat (length (positive_delays
                             (List.filter (on_day station date) (departures d))))
    /\ 0 <= DailyStat.delayed_departures r <= DailyStat.total_departures r
    /\ DailyStat.avg_delay_minutes r
       = average (positive_delays
                    (List.filter (on_day station date) (departures d)))
    /\ DailyStat.max_delay_minutes r
       = max_id (positive_delays
                   (List.filter (on_day station date) (departures d))).
Proof.
  destruct (recomputed_row w station date d)
    as (r & Hlast & Hs & Hd & Htotal & Hdelayed & Havg & Hmax).
  exists r. repeat split; try assumption.
  - rewrite Hdelayed. lia.
  - rewrite Hdelayed, Htotal. unfold positive_delays.
    pose proof (delayed_at_most
                  (Departure.delay <$> List.filter (on_day station date)
                                         (departures d))) as H.
    rewrite length_fmap in H. lia.
Qed.

Lemma update_daily_stats_row_witness :
  let w := {| utc := 1704067200; utc_offset := 0 |} in
  let row key delay :=
    {| Departure.id := key; Departure.station_id := "EMBR";
       Departure.destination := "Daly City"; Departure.platform := None;
       Departure.minutes := 5; Departure.direction := "South";
       Departure.color := None; Departure.length := None;
       Departure.bike_flag := None; Departure.delay := delay;
       Departure.timestamp := 1704067200; Departure.date := Some 19723;
       Departure.created_at := 1704067200 |} in
  exists r : DailyStat.row,
    last (daily_stats
            (update_daily_stats w "EMBR" 19723
               (with_departures empty_db
                  [row 1 (Some 0); row 2 (Some 4); row 3 None; row 4 (Some 7);
                   row 5 (Some (-2))]))) = Some r
    /\ DailyStat.total_departures r = 5
    /\ DailyStat.delayed_departures r = 2
    /\ DailyStat.avg_delay_minutes r = S754_finite false 6192449487634432 (-50)
    /\ DailyStat.max_delay_minutes r = 7.
Proof.
  intros w row.
  destruct (update_daily_stats_row w "EMBR" 19723
              (with_departures empty_db
                 [row 1 (Some 0); row 2 (Some 4); row 3 None; row 4 (Some 7);
                  row 5 (Some (-2))]))
    as (r & Hlast & _ & _ & Htotal & Hdelayed & _ & Havg & Hmax).
  exists r. repeat split; assumption.
Defined.

(** X11.  The day a saved departure is counted under is the UTC date of its
    creation, not the local date [save_departure] writes to its [date]
    column: when the two differ, recomputing the stats of the station for
    the stored date does not count the row (the total is 0 when the store
    held no departure of the station for that date), and recomputing them
    for the UTC date does. *)
Theorem stored_date_is_not_counted (w w' : wallclock) (p : departure_data)
    (d : db) :
  Forall (fun r => on_day (dd_station_id p) (local_date w) r = false)
    (departures d) ->
  local_date w <> date_of (utc w) ->
  (exists r, last (departures (save_departure w p d)) = Some r
             /\ Departure.station_id r = dd_station_id p
             /\ Departure.date r = Some (local_date w))
  /\ (exists s, last (daily_stats
                        (update_daily_stats w' (dd_station_id p) (local_date w)
                           (save_departure w p d))) = Some s
                /\ DailyStat.total_departures s = 0)
  /\ (exists s, last (daily_stats
                        (update_daily_stats w' (dd_station_id p) (date_of (utc w))
                           (save_departure w p d))) = Some s
                /\ 1 <= DailyStat.total_departures s).
Proof.
  intros Hold Hne. split; [|split].
  - eexists. unfold save_departure. cbn [departures]. rewrite last_snoc.
    split; [reflexivity|]. split; reflexivity.
  - destruct (recomputed_row w' (dd_station_id p) (local_date w)
                (save_departure w p d)) as (s & Hlast & _ & _ & Htotal & _).
    exists s. split; [exact Hlast|]. rewrite Htotal.
    unfold save_departure. cbn [departures].
    rewrite List.filter_app, (filter_none _ _ Hold). cbn [List.filter app].
    unfold on_day. cbn [departure_row Departure.station_id Departure.created_at].
    rewrite String.eqb_refl.
    destruct (date_of (utc w) =? local_date w) eqn:E; [|reflexivity].
    apply Z.eqb_eq in E. congruence.
  - destruct (recomputed_row w' (dd_station_id p) (date_of (utc w))
                (save_departure w p d)) as (s & Hlast & _ & _ & Htotal & _).
    exists s. split; [exact Hlast|]. rewrite Htotal.
    unfold save_departure. cbn [departures].
    rewrite List.filter_app, length_app. cbn [List.filter].
    rewrite on_day_departure_row. cbn [length]. lia.
Qed.

Lemma stored_date_is_not_counted_witness :
  let w := {| utc := 1704067200; utc_offset := -28800 |} in
  let p :=
    {| dd_station_id := "EMBR"; dd_destination := "Daly City";
       dd_platform := None; dd_minutes := 5; dd_direction := "South";
       dd_color := None; dd_length := None; dd_bike_flag := None;
       dd_delay := None |} in
  exists s, last (daily_stats (update_daily_stats w "EMBR" 19722
                                 (save_departure w p empty_db))) = Some s
            /\ DailyStat.total_departures s = 0.
Proof.
  intros w p.
  apply (proj1 (proj2 (stored_date_is_not_counted w w p empty_db
                         ltac:(constructor) ltac:(vm_compute; discriminate)))).
Defined.

(** X12.  The daily stats are not kept up to date: after a recomputation,
    saving one more departure of the station on that day leaves
    [daily_stats] as it was, and its last row then shows one departure less
    than a new recomputation would count. *)
Theorem daily_stats_go_stale (w1 w2 : wallclock) (p : departure_data) (date : Z)
    (d : db) :
  date_of (utc w2) = date ->
  daily_stats (save_departure w2 p
                 (update_daily_stats w1 (dd_station_id p) date d))
  = daily_stats (update_daily_stats w1 (dd_station_id p) date d)
  /\ exists s,
       last (daily_stats (save_departure w2 p
                            (update_daily_stats w1 (dd_station_id p) date d)))
       = Some s
       /\ (day_totals (dd_station_id p) date
             (save_departure w2 p
                (update_daily_stats w1 (dd_station_id p) date d))).1.1.1
          = DailyStat.total_departures s + 1.
Proof.
  intros Hdate. split; [reflexivity|].
  destruct (recomputed_row w1 (dd_station_id p) date d)
    as (s & Hlast & _ & _ & Htotal & _).
  exists s. split; [exact Hlast|]. rewrite Htotal.
  unfold day_totals. cbn [fst]. rewrite length_fmap.
  unfold save_departure, update_daily_stats. cbn [departures].
  rewrite List.filter_app, length_app. cbn [List.filter].
  rewrite <- Hdate, on_day_departure_row. cbn [length]. lia.
Qed.

Lemma daily_stats_go_stale_witness :
  let w := {| utc := 1704067200; utc_offset := 0 |} in
  let p :=
    {| dd_station_id := "EMBR"; dd_destination := "Daly City";
       dd_platform := None; dd_minutes := 5; dd_direction := "South";
       dd_color := None; dd_length := None; dd_bike_flag := None;
       dd_delay := None |} in
  daily_stats (save_departure w p (update_daily_stats w "EMBR" 19723 empty_db))
  = daily_stats (update_daily_stats w "EMBR" 19723 empty_db).
Proof.
  intros w p.
  apply (proj1 (daily_stats_go_stale w w p 19723 empty_db eq_refl)).
Defined.

Section StationStats.

Lemma insert_newest_perm (x : DailyStat.row) (l : list DailyStat.row) :
  Permutation (insert_newest x l) (x :: l).
Proof.
  induction l as [|y l IH]; simpl; [reflexivity|].
  destruct (DailyStat.date y <=? DailyStat.date x); [reflexivity|].
  rewrite IH. apply perm_swap.
Qed.

Lemma newest_first_perm (l : list DailyStat.row) :
  Permutation (newest_first l) l.
Proof.
  induction l as [|x l IH]; simpl; [reflexivity|].
  rewrite insert_newest_perm. now constructor.
Qed.

Lemma insert_newest_sorted (x : DailyStat.row) (l : list DailyStat.row) :
  StronglySorted (fun a b => DailyStat.date b <= DailyStat.date a) l ->
  StronglySorted (fun a b => DailyStat.date b <= DailyStat.date a)
    (insert_newest x l).
Proof.
  induction l as [|y l IH]; simpl; intros H.
  - constructor; constructor.
  - apply StronglySorted_inv in H as [Hl Hy].
    destruct (DailyStat.date y <=? DailyStat.date x) eqn:E.
    + apply Z.leb_le in E. constructor; [constructor; assumption|].
      constructor; [exact E|].
      eapply List.Forall_impl; [|exact Hy]. cbn. intros z Hz. lia.
    + apply Z.leb_gt in E. constructor; [auto|].
      eapply Permutation_Forall; [symmetry; apply insert_newest_perm|].
      constructor; [lia | exact Hy].
Qed.

Lemma newest_first_sorted (l : list DailyStat.row) :
  StronglySorted (fun a b => DailyStat.date b <= DailyStat.date a)
    (newest_first l).
Proof.
  induction l as [|x l IH]; simpl; [constructor|].
  now apply insert_newest_sorted.
Qed.

Lemma sorted_app_inv {A} (R : A -> A -> Prop) (l1 l2 : list A) :
  StronglySorted R (l1 ++ l2) ->
  StronglySorted R l1 /\ forall a b, In a l1 -> In b l2 -> R a b.
Proof.
  induction l1 as [|x l1 IH]; simpl; intros H.
  - split; [constructor | tauto].
  - apply StronglySorted_inv in H as [Hl Hx].
    destruct (IH Hl) as [Hs Hab]. split.
    + constructor; [exact Hs|].
      apply List.Forall_forall. intros z Hz.
      rewrite List.Forall_forall in Hx. apply Hx, List.in_or_app. now left.
    + intros a b [<- | Ha] Hb; [|auto].
      rewrite List.Forall_forall in Hx. apply Hx, List.in_or_app. now right.
Qed.

Lemma sorted_columns (l : list DailyStat.row) :
  StronglySorted (fun a b => DailyStat.date b <= DailyStat.date a) l ->
  StronglySorted not_older (stat_columns <$> l).
Proof.
  induction 1 as [|x l _ IH Hx]; cbn [fmap list_fmap]; constructor; [exact IH|].
  clear -Hx. induction Hx as [|y l Hy _ IH]; cbn [fmap list_fmap];
    constructor; [exact Hy | exact IH].
Qed.

(** The limit cuts a list in what is returned and what is left out. *)
Lemma sql_limit_split {A} (n : Z) (l : list A) :
  exists rest, l = (sql_limit n l ++ rest)%list
               /\ length (sql_limit n l)
                  = if n <? 0 then length l else Nat.min (Z.to_nat n) (length l).
Proof.
  unfold sql_limit. destruct (n <? 0).
  - exists []. now rewrite app_nil_r.
  - exists (skipn (Z.to_nat n) l). split.
    + symmetry. apply firstn_skipn.
    + apply length_firstn.
Qed.


End StationStats.

(** X13.  [get_station_stats] returns rows of the station only, newest date
    first, and as many as the limit allows (all of them for a negative
    limit); the rows it leaves out are none of them more recent than a row
    it returns. *)
Theorem get_station_stats_newest (station_id : string) (days : Z) (d : db) :
  length (get_station_stats station_id days d)
  = (if days <? 0 then length (station_stats station_id d)
     else Nat.min (Z.to_nat days) (length (station_stats station_id d)))
  /\ StronglySorted not_older (get_station_stats station_id days d)
  /\ exists rest,
       Permutation (station_stats station_id d)
         (get_station_stats station_id days d ++ rest)
       /\ forall a b, In a (get_station_stats station_id days d) ->
                      In b rest -> not_older a b.
Proof.
  unfold get_station_stats, station_stats.
  set (rows := List.filter (of_station station_id) (daily_stats d)).
  destruct (sql_limit_split days (newest_first rows)) as (rest & Hsplit & Hlen).
  pose proof (newest_first_sorted rows) as Hsorted.
  rewrite Hsplit in Hsorted. apply sorted_columns in Hsorted.
  rewrite fmap_app in Hsorted. apply sorted_app_inv in Hsorted as [Hs Hab].
  split; [|split].
  - rewrite !length_fmap, Hlen.
    now rewrite (Permutation_length (newest_first_perm rows)).
  - exact Hs.
  - exists (stat_columns <$> rest). split; [|exact Hab].
    rewrite <- fmap_app, <- Hsplit.
    symmetry. apply Permutation_map', newest_first_perm.
Qed.



(** ** Further properties of the destination analytics *)

(** X15.  The rows of the destination analytics list each destination of
    the last seven days exactly once, by decreasing total; the totals add up
    to the number of departures of the last seven days, and the delayed
    count of a row is between 0 and its total. *)
Theorem station_analytics_groups (sql_round1 : spec_float -> spec_float)
    (now : Z) (d : db) :
  List.NoDup (stat_destination <$> station_analytics_query sql_round1 now d)
  /\ (forall r, In r (departures d) -> in_window now r = true ->
        In (Departure.destination r)
           (stat_destination <$> station_analytics_query sql_round1 now d))
  /\ StronglySorted (fun a b => stat_total b <= stat_total a)
       (station_analytics_query sql_round1 now d)
  /\ total (stat_total <$> station_analytics_query sql_round1 now d)
     = Z.of_nat (length (List.filter (in_window now) (departures d)))
  /\ Forall (fun s => 0 <= stat_delayed s <= stat_total s)
       (station_analytics_query sql_round1 now d).
Proof.
  unfold station_analytics_query.
  set (rows := List.filter (in_window now) (departures d)).
  set (ks := distinct (Departure.destination <$> rows)).
  pose proof (order_desc_perm (destination_stats sql_round1 rows <$> ks)) as Hperm.
  assert (Hdest : stat_destination <$> (destination_stats sql_round1 rows <$> ks)
                  = ks).
  { clear. induction ks as [|k ks IH]; [reflexivity|].
    cbn [fmap list_fmap] in *. now rewrite IH. }
  assert (Htot : stat_total <$> (destination_stats sql_round1 rows <$> ks)
                 = (fun k => Z.of_nat
                      (length (List.filter
                                 (fun r => String.eqb (Departure.destination r) k)
                                 rows))) <$> ks).
  { clear. induction ks as [|k ks IH]; [reflexivity|].
    cbn [fmap list_fmap] in *. rewrite IH. f_equal.
    unfold stat_total, destination_stats. cbn [fst snd].
    now rewrite length_fmap. }
  split; [|split; [|split; [|split]]].
  - eapply Permutation_NoDup.
    + symmetry. apply Permutation_map'. exact Hperm.
    + change (List.NoDup (stat_destination
                            <$> (destination_stats sql_round1 rows <$> ks))).
      rewrite Hdest. apply distinct_NoDup.
  - intros r. apply destination_listed.
  - apply order_desc_sorted.
  - rewrite (total_perm _ _ (fmap_Permutation stat_total _ _ Hperm)).
    change (total (stat_total <$> (destination_stats sql_round1 rows <$> ks))
            = Z.of_nat (length rows)).
    rewrite Htot, (counts_add_up rows ks (distinct_NoDup _)).
    rewrite filter_all; [reflexivity|].
    intros r Hr. apply existsb_exists. exists (Departure.destination r).
    split; [|apply String.eqb_refl].
    apply distinct_in, in_destinations, Hr.
  - eapply Permutation_Forall; [symmetry; exact Hperm|].
    apply List.Forall_forall. intros s Hs.
    apply in_fmap in Hs as (k & -> & _).
    unfold stat_delayed, stat_total, destination_stats. cbn [fst snd].
    match goal with |- context [sql_count ?l] =>
      pose proof (sql_count_bounds l) as H end.
    rewrite length_fmap in H. exact H.
Qed.

Lemma station_analytics_groups_witness :
  let row :=
    {| Departure.id := 1; Departure.station_id := "EMBR";
       Departure.destination := "Daly City"; Departure.platform := None;
       Departure.minutes := 5; Departure.direction := "South";
       Departure.color := None; Departure.length := None;
       Departure.bike_flag := None; Departure.delay := Some 0;
       Departure.timestamp := 1704067200; Departure.date := None;
       Departure.created_at := 1704067200 |} in
  In "Daly City"
    (stat_destination
       <$> station_analytics_query (fun x => x) 1704070800
             (with_departures empty_db [row])).
Proof.
  intros row.
  apply (proj1 (proj2 (station_analytics_groups (fun x => x) 1704070800
                         (with_departures empty_db [row]))) row).
  - now left.
  - reflexivity.
Defined.

(** X16.  As soon as one departure is at most seven days old, the
    destination analytics answers HTTP 200 with the status [Data available]
    and one entry per row of the query, in its order. *)
Theorem station_analytics_with_data (sql_round1 : spec_float -> spec_float)
    (clock : nat -> string) (w : wallclock) (d : db) (r : Departure.row) :
  In r (departures d) ->
  in_window (utc w) r = true ->
  station_analytics_query sql_round1 (utc w) d <> []
  /\ get_station_analytics sql_round1 clock w (Ok d)
     = {| body := dict [("status", PStr "Data available");
                        ("timestamp", PStr (clock 0%nat));
                        ("data",
                         PList (analytics_entry
                                  <$> station_analytics_query sql_round1 (utc w) d))];
          code := 200 |}.
Proof.
  intros Hr Hw.
  assert (Hne : station_analytics_query sql_round1 (utc w) d <> []).
  { intros Hnil.
    pose proof (destination_listed sql_round1 (utc w) d r Hr Hw) as Hin.
    rewrite Hnil in Hin. exact Hin. }
  split; [exact Hne|].
  unfold get_station_analytics.
  destruct (station_analytics_query sql_round1 (utc w) d); [congruence|].
  reflexivity.
Qed.

Lemma station_analytics_with_data_witness :
  let row :=
    {| Departure.id := 1; Departure.station_id := "EMBR";
       Departure.destination := "Daly City"; Departure.platform := None;
       Departure.minutes := 5; Departure.direction := "South";
       Departure.color := None; Departure.length := None;
       Departure.bike_flag := None; Departure.delay := Some 0;
       Departure.timestamp := 1704067200; Departure.date := None;
       Departure.created_at := 1704067200 |} in
  station_analytics_query (fun x => x) 1704070800 (with_departures empty_db [row])
  <> [].
Proof.
  intros row.
  apply (proj1 (station_analytics_with_data (fun x => x) (fun _ => "t")
                  {| utc := 1704070800; utc_offset := 0 |}
                  (with_departures empty_db [row]) row
                  (or_introl eq_refl) eq_refl)).
Defined.

(** ** The path of the database file *)

Section Paths.

Lemma head_of_no_slash (p : string) : has_slash p = false -> head_of p = "".
Proof.
  destruct p as [|c p]; [reflexivity|]. simpl. intros H. now rewrite H.
Qed.

Lemma head_of_slash (p : string) : has_slash p = true -> head_of p <> "".
Proof.
  destruct p as [|c p]; [discriminate|]. simpl. intros H. now rewrite H.
Qed.

Lemma rstrip_slashes_empty (s : string) :
  rstrip_slashes s = "" -> all_slashes s = true.
Proof.
  induction s as [|c s IH]; [reflexivity|].
  simpl. destruct (rstrip_slashes s) eqn:E; [|discriminate].
  destruct (Ascii.eqb c "/"); [intros _; now apply IH | discriminate].
Qed.

Lemma dirname_no_slash (p : string) : has_slash p = false -> dirname p = "".
Proof. intros H. unfold dirname. now rewrite (head_of_no_slash p H). Qed.

Lemma dirname_slash (p : string) : has_slash p = true -> dirname p <> "".
Proof.
  intros H. apply head_of_slash in H. unfold dirname.
  destruct (String.eqb (head_of p) "") eqn:E;
    [apply String.eqb_eq in E; contradiction|].
  destruct (all_slashes (head_of p)) eqn:Ea; cbn [negb andb]; [exact H|].
  intros Hr. apply rstrip_slashes_empty in Hr. congruence.
Qed.

End Paths.

(** X17.  A path given to [BartDatabase] is used only if it names a
    directory that can be created: a path without a slash (a bare file
    name, [:memory:]) is replaced by [bart.db] whatever the environment,
    and so is a path whose directory cannot be created; a path with a slash
    whose directory can be created is kept.  Without a path, the file is
    [/app/data/bart.db] when [RAILWAY_ENVIRONMENT] is set and not empty and
    [data/bart.db] otherwise, with the same fallback. *)
Theorem db_path_needs_directory (environ : string -> option string)
    (makedirs_ok : string -> bool) :
  (forall p, has_slash p = false ->
             db_path_of environ makedirs_ok (Some p) = "bart.db")
  /\ (forall p, has_slash p = true ->
                db_path_of environ makedirs_ok (Some p)
                = if makedirs_ok (dirname p) then p else "bart.db")
  /\ db_path_of environ makedirs_ok None
     = (if truthy (environ "RAILWAY_ENVIRONMENT")
        then if makedirs_ok "/app/data" then "/app/data/bart.db" else "bart.db"
        else if makedirs_ok "data" then "data/bart.db" else "bart.db").
Proof.
  split; [|split].
  - intros p H. unfold db_path_of. now rewrite (dirname_no_slash p H).
  - intros p H. unfold db_path_of.
    destruct (String.eqb (dirname p) "") eqn:E; [|reflexivity].
    apply String.eqb_eq in E. now apply dirname_slash in H.
  - unfold db_path_of.
    destruct (truthy (environ "RAILWAY_ENVIRONMENT")); reflexivity.
Qed.

Lemma db_path_needs_directory_witness :
  db_path_of (fun _ => None) (fun _ => true) (Some ":memory:") = "bart.db"
  /\ db_path_of (fun _ => None) (fun _ => true) (Some "/tmp/test/bart.db")
     = "/tmp/test/bart.db".
Proof.
  split.
  - apply (proj1 (db_path_needs_directory (fun _ => None) (fun _ => true))).
    reflexivity.
  - apply (proj1 (proj2 (db_path_needs_directory (fun _ => None) (fun _ => true)))
             "/tmp/test/bart.db").
    reflexivity.
Defined.

(** ** Values the adapter lets through or trips on *)

(** X18.  The minutes are not checked to be non-negative: a numeral with a
    minus sign is normalized to the negative integer it denotes. *)
Theorem negative_minutes_pass (estimate : gmap string pyval) (s : string) :
  estimate !! "minutes" = Some (PStr (String "-" s)) ->
  is_decimal s = true ->
  Z.of_nat (String.length s) <= int_max_str_digits ->
  minutes_field (PDict estimate) = Ok (- decimal_value s).
Proof.
  intros Hm Hd Hlen.
  unfold minutes_field, py_getitem. rewrite Hm. cbn [rbind].
  assert (Hne : py_ne (PStr (String "-" s)) "Leaving" = true) by reflexivity.
  rewrite Hne. cbn [rbind py_int]. unfold int_of_string.
  unfold is_decimal in Hd. apply andb_prop in Hd as [Hnonempty Hall].
  assert (Hl : lstrip (String "-" s) = String "-" s) by reflexivity.
  rewrite Hl.
  assert (Hr : rstrip (String "-" s) = String "-" s).
  { cbn [rstrip]. rewrite (rstrip_digits s Hall).
    destruct s; [discriminate | reflexivity]. }
  rewrite Hr.
  rewrite parse_digits_value; [|assumption | intros ->; discriminate].
  rewrite count_digits_length by assumption.
  destruct (int_max_str_digits <? Z.of_nat (String.length s)) eqn:E.
  - apply Z.ltb_lt in E. lia.
  - reflexivity.
Qed.

Lemma negative_minutes_pass_witness :
  minutes_field (dict [("minutes", PStr "-3")]) = Ok (-3).
Proof.
  apply (negative_minutes_pass (list_to_map [("minutes", PStr "-3")]) "3").
  - reflexivity.
  - reflexivity.
  - vm_compute. discriminate.
Defined.

(** X19.  The destination groups must come as a list: when the [etd] key of
    the first station block maps to a JSON object instead, the handler
    iterates over its keys, and unless the object is empty it answers HTTP
    500 with the type error of indexing a string; an empty object gives the
    success response with no departures. *)
Theorem group_object_is_error (clock : nat -> string) (feed : string -> upstream)
    (station : string) (d r block g : gmap string pyval) (rest : list pyval) :
  answers (feed station) (PDict d) ->
  d !! "root" = Some (PDict r) ->
  r !! "station" = Some (PList (PDict block :: rest)) ->
  block !! "etd" = Some (PDict g) ->
  get_departures clock feed station
  = if decide (g = ∅)
    then {| body := dict [("status", PStr "Data available");
                          ("timestamp", PStr (clock 0%nat));
                          ("departures", PList [])];
            code := 200 |}
    else {| body := dict [("status", PStr "Error");
                          ("timestamp", PStr (clock 0%nat));
                          ("error",
                           PStr "string indices must be integers, not 'str'");
                          ("departures", PList [])];
            code := 500 |}.
Proof.
  intros (status_code & http_error & Hfeed & Hstatus) Hroot Hst Hetd.
  assert (H1 : py_contains "root" (PDict d) = Ok true)
    by (cbn; now rewrite Hroot).
  assert (H2 : py_getitem (PDict d) "root" = Ok (PDict r))
    by (cbn; now rewrite Hroot).
  assert (H3 : py_contains "station" (PDict r) = Ok true)
    by (cbn; now rewrite Hst).
  assert (H4 : py_getitem (PDict r) "station" = Ok (PList (PDict block :: rest)))
    by (cbn; now rewrite Hst).
  assert (H5 : py_contains "etd" (PDict block) = Ok true)
    by (cbn; now rewrite Hetd).
  assert (H6 : py_getitem (PDict block) "etd" = Ok (PDict g))
    by (cbn; now rewrite Hetd).
  unfold get_departures, get_departures_try, bind at 1, lift at 1, fetch_json.
  rewrite Hfeed, Hstatus. unfold bind at 1.
  unfold collect_departures.
  rewrite H1. unfold bind at 1, lift at 1.
  rewrite H2. cbn [rbind]. rewrite H3. unfold bind at 1, lift at 1.
  rewrite H4. cbn [rbind py_getitem0]. unfold bind at 1, lift at 1.
  rewrite H5. unfold bind at 1, lift at 1.
  rewrite H6. cbn [rbind py_iter]. unfold bind at 1, lift at 1.
  destruct (decide (g = ∅)) as [-> | Hne].
  - rewrite map_to_list_empty. reflexivity.
  - destruct (map_to_list g) as [|[k v] l] eqn:E.
    + apply map_to_list_empty_iff in E. contradiction.
    + reflexivity.
Qed.

Lemma group_object_is_error_witness :
  code (get_departures (fun _ => "t")
          (fun _ => Response 200 ""
             (Ok (dict [("root", dict [("station",
                    PList [dict [("etd",
                      dict [("destination", PStr "Daly City")])]])])])))
          "EMBR")
  = 500.
Proof.
  rewrite (group_object_is_error (fun _ => "t")
             (fun _ => Response 200 ""
                (Ok (dict [("root", dict [("station",
                       PList [dict [("etd",
                         dict [("destination", PStr "Daly City")])]])])])))
             "EMBR"
             (list_to_map [("root", dict [("station",
                PList [dict [("etd", dict [("destination", PStr "Daly City")])]])])])
             (list_to_map [("station",
                PList [dict [("etd", dict [("destination", PStr "Daly City")])]])])
             (list_to_map [("etd", dict [("destination", PStr "Daly City")])])
             (list_to_map [("destination", PStr "Daly City")]) []
             ltac:(exists 200, ""; split; reflexivity) eq_refl eq_refl eq_refl).
  reflexivity.
Defined.

(** ** The day of a saved departure *)

Section SavedRows.

(** The rows a sequence of [save_departure] adds: one per record, in order,
    with the station of the record, the local date of its clock in the
    [date] column and the instant of its clock as [created_at]. *)
Lemma saved_rows (l : list (wallclock * departure_data)) : forall d : db,
  exists rows : list Departure.row,
    departures (save_departures l d) = (departures d ++ rows)%list
    /\ Forall2 (fun x r => Departure.station_id r = dd_station_id x.2
                           /\ Departure.date r = Some (local_date x.1)
                           /\ Departure.created_at r = utc x.1) l rows.
Proof.
  induction l as [|[w p] l IH]; intros d.
  - exists []. split; [now rewrite app_nil_r | constructor].
  - cbn [save_departures fold_left fst snd].
    change (fold_left _ l ?x) with (save_departures l x).
    destruct (IH (save_departure w p d)) as (rows & Hrows & Hall).
    eexists (_ :: rows). split.
    + rewrite Hrows. unfold save_departure at 1. cbn [departures].
      rewrite <- app_assoc. reflexivity.
    + constructor; [|exact Hall]. repeat split.
Qed.

End SavedRows.

(** C5, as the code behaves.  The day [save_departure] writes to a row is
    the local date, the day [update_daily_stats] selects rows by is the UTC
    date of their creation.  When N departures of a station are saved at
    instants whose local date is a day and whose UTC date is not, the N rows
    carry that day in their [date] column, and on a store that held no
    departure of the station created on that day the recomputation of the
    daily stats of the station for that day stores [total_departures] 0,
    not N. *)
Theorem daily_stats_miss_the_stored_day (station : string) (day : Z)
    (inserts : list (wallclock * departure_data)) (w : wallclock) (d : db) :
  Forall (fun r => on_day station day r = false) (departures d) ->
  Forall (fun x => dd_station_id x.2 = station
                   /\ local_date x.1 = day
                   /\ date_of (utc x.1) <> day) inserts ->
  exists (rows : list Departure.row) (r : DailyStat.row),
    departures (save_departures inserts d) = (departures d ++ rows)%list
    /\ length rows = length inserts
    /\ Forall (fun x => Departure.station_id x = station
                        /\ Departure.date x = Some day) rows
    /\ last (daily_stats (update_daily_stats w station day
                            (save_departures inserts d))) = Some r
    /\ DailyStat.station_id r = station
    /\ DailyStat.date r = day
    /\ DailyStat.total_departures r = 0
    /\ (inserts <> [] ->
        DailyStat.total_departures r <> Z.of_nat (length inserts)).
Proof.
  intros Hold Hnew.
  destruct (saved_rows inserts d) as (rows & Hrows & Hall).
  destruct (recomputed_row w station day (save_departures inserts d))
    as (r & Hlast & Hs & Hd & Htotal & _).
  exists rows, r.
  assert (Hnone : List.filter (on_day station day) rows = []).
  { clear -Hnew Hall. revert Hnew.
    induction Hall as [|x y l rows (_ & _ & Hc) _ IH]; intros Hnew;
      [reflexivity|].
    inversion Hnew as [|? ? (_ & _ & Hne) Hrest]; subst.
    cbn [List.filter]. unfold on_day at 1. rewrite Hc.
    destruct (date_of (utc x.1) =? day) eqn:E.
    - apply Z.eqb_eq in E. contradiction.
    - rewrite andb_false_r. now apply IH. }
  assert (Hzero : DailyStat.total_departures r = 0).
  { rewrite Htotal, Hrows, List.filter_app, (filter_none _ _ Hold), Hnone.
    reflexivity. }
  split; [exact Hrows|]. split.
  { symmetry. eapply Forall2_length. exact Hall. }
  split.
  { clear -Hnew Hall. revert Hnew.
    induction Hall as [|x y l rows (Hs & Hd & _) _ IH]; intros Hnew;
      [constructor|].
    inversion Hnew as [|? ? (Hst & Hl & _) Hrest]; subst.
    constructor; [split; congruence | now apply IH]. }
  split; [exact Hlast|]. split; [exact Hs|]. split; [exact Hd|].
  split; [exact Hzero|].
  intros Hne. rewrite Hzero. destruct inserts; [congruence|].
  cbn [length]. lia.
Qed.

Lemma daily_stats_miss_the_stored_day_witness :
  let w := {| utc := 1704067200; utc_offset := -28800 |} in
  let p delay :=
    {| dd_station_id := "EMBR"; dd_destination := "Daly City";
       dd_platform := None; dd_minutes := 5; dd_direction := "South";
       dd_color := None; dd_length := None; dd_bike_flag := None;
       dd_delay := delay |} in
  exists (rows : list Departure.row) (r : DailyStat.row),
    departures (save_departures [(w, p None); (w, p (Some 4)); (w, p (Some 7))]
                  empty_db) = rows
    /\ Forall (fun x => Departure.date x = Some 19722) rows
    /\ last (daily_stats (update_daily_stats w "EMBR" 19722
               (save_departures [(w, p None); (w, p (Some 4)); (w, p (Some 7))]
                  empty_db))) = Some r
    /\ DailyStat.total_departures r = 0.
Proof.
  intros w p.
  destruct (daily_stats_miss_the_stored_day "EMBR" 19722
              [(w, p None); (w, p (Some 4)); (w, p (Some 7))] w empty_db)
    as (rows & r & Hrows & _ & Hday & Hlast & _ & _ & Hzero & _).
  - constructor.
  - repeat constructor; vm_compute; discriminate.
  - exists rows, r. split; [exact Hrows|]. split; [|split; assumption].
    eapply List.Forall_impl; [|exact Hday]. cbn. tauto.
Defined.
